(** * The filter-and-aggregate engine of the terrorism dashboard

    A shallow embedding of [dashboard.py].  The script is a single top-to-bottom
    pass over a pandas DataFrame: it loads the table, narrows it with boolean
    masks driven by the sidebar widgets, and feeds the narrowed table to a
    series of group-by aggregations.

    Modelling conventions
    - a DataFrame is the list of its rows, in index order; a boolean-mask
      selection [df[mask]] is [filter];
    - a nullable column holds [option] values, [None] standing for NaN;
    - the casualty columns hold counts, modelled as [Z] (pandas stores them as
      floats because they are nullable); means and quantiles are exact
      rationals ([Q]), where pandas computes them in binary floating point;
    - an exception raised by pandas is a value of [result]. *)

From Stdlib Require Import String Ascii ZArith QArith Bool Lia List.
From Stdlib Require Import Permutation Sorted DecimalString DecimalPos DecimalZ.
Import ListNotations.
Open Scope string_scope.
Open Scope list_scope.
Open Scope Z_scope.

(** ** Data model *)

(** One row of [gtd_cleaned.csv], restricted to the columns the script reads. *)
Record Incident := mkIncident {
  year        : Z;
  month       : Z;
  country     : option string;
  city        : option string;
  region      : option string;
  latitude    : option Q;
  longitude   : option Q;
  attack_type : option string;
  target_type : option string;
  group_name  : option string;
  nkill       : option Z;
  nwound      : option Z;
  success     : Z
}.

Definition DataFrame := list Incident.

(** The radio button "Attack Outcome". *)
Inductive Outcome := All | Successful | Failed.

(** The values of the sidebar widgets. *)
Record FilterCriteria := mkCriteria {
  year_range       : Z * Z;
  selected_region  : string;
  selected_country : string;
  selected_attack  : string;
  success_filter   : Outcome
}.

(** ** Exceptions *)

Inductive exn := ValueError | IndexError | KeyError.

Inductive result (A : Type) :=
| Ok (a : A)
| Raise (e : exn).
Arguments Ok {A} a.
Arguments Raise {A} e.

Definition bind {A B : Type} (m : result A) (k : A -> result B) : result B :=
  match m with
  | Ok a => k a
  | Raise e => Raise e
  end.

Notation "x <- m ;; k" := (bind m (fun x => k))
  (at level 61, m at next level, right associativity).

(** ** Column helpers *)

(** [series == s] on a nullable string column: NaN compares unequal. *)
Definition str_eq (v : option string) (s : string) : bool :=
  match v with
  | Some x => String.eqb x s
  | None => false
  end.

(** [Series.dropna()]. *)
Fixpoint dropna {A : Type} (col : list (option A)) : list A :=
  match col with
  | [] => []
  | Some x :: t => x :: dropna t
  | None :: t => dropna t
  end.

(** [Series.sum()]: NaN is skipped, so a null contributes nothing. *)
Definition col_sum (col : list (option Z)) : Z :=
  fold_right Z.add 0 (dropna col).

(** [Series.count()]: the number of non-null cells. *)
Definition col_count {A : Type} (col : list (option A)) : Z :=
  Z.of_nat (length (dropna col)).

(** [Series.mean()]: NaN ([None]) when no non-null value is left. *)
Definition mean (xs : list Z) : option Q :=
  match xs with
  | [] => None
  | _ => Some (Qred (fold_right Z.add 0 xs # Pos.of_nat (length xs)))
  end.

(** ** Filter engine (the "APPLY FILTERS" block) *)

Definition year_mask (c : FilterCriteria) (r : Incident) : bool :=
  (fst (year_range c) <=? year r) && (year r <=? snd (year_range c)).

Definition region_mask (c : FilterCriteria) (r : Incident) : bool :=
  str_eq (region r) (selected_region c).

Definition country_mask (c : FilterCriteria) (r : Incident) : bool :=
  str_eq (country r) (selected_country c).

Definition attack_mask (c : FilterCriteria) (r : Incident) : bool :=
  str_eq (attack_type r) (selected_attack c).

Definition region_set (c : FilterCriteria) : bool :=
  negb (String.eqb (selected_region c) "All Regions").

Definition country_set (c : FilterCriteria) : bool :=
  negb (String.eqb (selected_country c) "All Countries").

Definition attack_set (c : FilterCriteria) : bool :=
  negb (String.eqb (selected_attack c) "All Types").

(** [df_filtered], statement by statement. *)
Definition apply_filters (df : DataFrame) (c : FilterCriteria) : DataFrame :=
  let df_filtered := filter (year_mask c) df in
  let df_filtered :=
    if region_set c then filter (region_mask c) df_filtered else df_filtered in
  let df_filtered :=
    if country_set c then filter (country_mask c) df_filtered else df_filtered in
  let df_filtered :=
    if attack_set c then filter (attack_mask c) df_filtered else df_filtered in
  match success_filter c with
  | Successful => filter (fun r => success r =? 1) df_filtered
  | Failed => filter (fun r => success r =? 0) df_filtered
  | All => df_filtered
  end.

(** The predicates of a criteria value that are switched on, as one mask. *)
Definition outcome_mask (c : FilterCriteria) (r : Incident) : bool :=
  match success_filter c with
  | Successful => success r =? 1
  | Failed => success r =? 0
  | All => true
  end.

Definition satisfies (c : FilterCriteria) (r : Incident) : bool :=
  year_mask c r
  && (if region_set c then region_mask c r else true)
  && (if country_set c then country_mask c r else true)
  && (if attack_set c then attack_mask c r else true)
  && outcome_mask c r.

(** The selections of the filter block that a criteria value switches on, in
    script order, and a frame narrowed by a list of selections one after the
    other. *)
Definition passes (c : FilterCriteria) : list (Incident -> bool) :=
  [year_mask c]
  ++ (if region_set c then [region_mask c] else [])
  ++ (if country_set c then [country_mask c] else [])
  ++ (if attack_set c then [attack_mask c] else [])
  ++ match success_filter c with
     | Successful => [fun r => success r =? 1]
     | Failed => [fun r => success r =? 0]
     | All => []
     end.

Definition run_passes (ps : list (Incident -> bool)) (df : DataFrame)
  : DataFrame :=
  fold_left (fun v p => filter p v) ps df.

(** ** Sorting *)

Section Sorting.
Context {A : Type} (leb : A -> A -> bool).

(** Stable insertion: [x] stays in front of the elements it ties with. *)
Fixpoint insert_by (x : A) (l : list A) : list A :=
  match l with
  | [] => [x]
  | y :: t => if leb x y then x :: l else y :: insert_by x t
  end.

Definition sort_by (l : list A) : list A := fold_right insert_by [] l.
End Sorting.

(** ** Group-by *)

(** [Series.unique()]: the distinct values in order of first appearance. *)
Fixpoint unique {A : Type} (eq_dec : forall x y : A, {x = y} + {x <> y})
  (l : list A) : list A :=
  match l with
  | [] => []
  | x :: t =>
      x :: filter (fun y => if eq_dec x y then false else true) (unique eq_dec t)
  end.

(** [groupby(key)] on a never-null integer key: the distinct keys in ascending
    order, each with its rows in frame order. *)
Definition groupby_Z (key : Incident -> Z) (v : DataFrame)
  : list (Z * DataFrame) :=
  map (fun k => (k, filter (fun r => key r =? k) v))
      (sort_by Z.leb (unique Z.eq_dec (map key v))).

(** [groupby(key)] on a nullable string key: rows whose key is NaN belong to no
    group; the groups come in ascending key order. *)
Definition groupby_str (key : Incident -> option string) (v : DataFrame)
  : list (string * DataFrame) :=
  map (fun k => (k, filter (fun r => str_eq (key r) k) v))
      (sort_by String.leb (unique string_dec (dropna (map key v)))).

(** ** Yearly trend (tab 1) *)

Record YearlyRow := mkYearly {
  y_year       : Z;
  killed       : Z;
  wounded      : Z;
  attacks      : Z;
  success_rate : option Q
}.

(** [groupby('year').agg({'nkill': 'sum', 'nwound': 'sum', 'country': 'count',
    'success': 'mean'}).reset_index()]. *)
Definition yearly (v : DataFrame) : list YearlyRow :=
  map (fun g =>
         mkYearly (fst g)
                  (col_sum (map nkill (snd g)))
                  (col_sum (map nwound (snd g)))
                  (col_count (map country (snd g)))
                  (mean (map success (snd g))))
      (groupby_Z year v).

(** ** The scenario dataset

    The two records of the specification's scenario; the columns it does not
    mention are null (month is 1). *)

Definition scenario_row1 : Incident :=
  mkIncident 1999 1 (Some "X") None (Some "A") None None (Some "Bombing")
             None None (Some 5) None 1.

Definition scenario_row2 : Incident :=
  mkIncident 2001 1 (Some "Y") None (Some "B") None None (Some "Assault")
             None None (Some 0) None 0.

Definition scenario_dataset : DataFrame := [scenario_row1; scenario_row2].

Definition scenario_criteria : FilterCriteria :=
  mkCriteria (2000, 2020) "All Regions" "All Countries" "All Types" All.

(** ** Sidebar: the year slider *)

(** [int(df['year'].min())]: on an empty frame the minimum is NaN and [int]
    raises. *)
Definition col_min (l : list Z) : result Z :=
  match l with
  | [] => Raise ValueError
  | x :: t => Ok (fold_right Z.min x t)
  end.

Definition col_max (l : list Z) : result Z :=
  match l with
  | [] => Raise ValueError
  | x :: t => Ok (fold_right Z.max x t)
  end.

(** [min_year, max_year]: the bounds handed to the slider. *)
Definition slider_bounds (df : DataFrame) : result (Z * Z) :=
  min_year <- col_min (map year df) ;;
  max_year <- col_max (map year df) ;;
  Ok (min_year, max_year).

(** The slider's [value] argument, [(2000, max_year)]: what [year_range] is
    until the user moves a handle. *)
Definition default_year_range (df : DataFrame) : result (Z * Z) :=
  b <- slider_bounds df ;;
  Ok (2000, snd b).

(** The criteria of a session in which no widget has been touched. *)
Definition default_criteria (yr : Z * Z) : FilterCriteria :=
  mkCriteria yr "All Regions" "All Countries" "All Types" All.

(** ** Attack tab: the lethality box plot *)

(** [Series.quantile(0.95)], linear interpolation: nulls are dropped, the
    values sorted, and the result read at position [0.95 * (n - 1)], between
    the two neighbouring order statistics.  [0.95] is taken as [19/20]. *)
Definition quantile95 (col : list (option Z)) : option Q :=
  let s := sort_by Z.leb (dropna col) in
  match s with
  | [] => None
  | x0 :: _ =>
      let n := Z.of_nat (length s) in
      let pos := 19 * (n - 1) in
      let lo := pos / 20 in
      let g := pos mod 20 in
      let a := nth (Z.to_nat lo) s x0 in
      let b := nth (Z.to_nat (Z.min (lo + 1) (n - 1))) s x0 in
      Some (inject_Z a + inject_Z g / 20 * inject_Z (b - a))%Q
  end.

(** [series <= threshold]: false as soon as either side is NaN. *)
Definition le_threshold (x : option Z) (q : option Q) : bool :=
  match x, q with
  | Some x, Some q => Qle_bool (inject_Z x) q
  | _, _ => false
  end.

(** The frame handed to [px.box]:
    [df_filtered[df_filtered['nkill'] <= df_filtered['nkill'].quantile(0.95)]]. *)
Definition boxplot_input (v : DataFrame) : DataFrame :=
  filter (fun r => le_threshold (nkill r) (quantile95 (map nkill v))) v.

Definition same_attack_type (r r' : Incident) : bool :=
  match attack_type r, attack_type r' with
  | Some a, Some b => String.eqb a b
  | None, None => true
  | _, _ => false
  end.

(** The clip as the specification words it: every row is compared with the
    95th percentile of its own attack-type group. *)
Definition boxplot_input_per_group (v : DataFrame) : DataFrame :=
  filter (fun r =>
            le_threshold (nkill r)
              (quantile95 (map nkill (filter (same_attack_type r) v))))
         v.

(** ** Map tab: country tables *)

(** [Series.value_counts()]: the non-null values with their frequencies, most
    frequent first. *)
Definition value_counts (col : list (option string)) : list (string * Z) :=
  let vals := dropna col in
  sort_by (fun a b => snd b <=? snd a)
          (map (fun k => (k, Z.of_nat (count_occ string_dec vals k)))
               (unique string_dec vals)).

(** [country_counts], the table behind the choropleth. *)
Definition country_counts (v : DataFrame) : list (string * Z) :=
  value_counts (map country v).

Record CountryRow := mkCountryRow {
  c_country : string;
  c_killed  : Z;
  c_attacks : Z
}.

(** [groupby('country').agg({'nkill': 'sum', 'year': 'count'}).reset_index()];
    [year] is never null, so its count is the size of the group. *)
Definition country_agg (v : DataFrame) : list CountryRow :=
  map (fun g =>
         mkCountryRow (fst g) (col_sum (map nkill (snd g)))
                      (Z.of_nat (length (snd g))))
      (groupby_str country v).

(** [DataFrame.nlargest(n, column)]: descending by the column, ties in frame
    order, the first [n] rows. *)
Definition nlargest {A : Type} (n : nat) (key : A -> Z) (l : list A) : list A :=
  firstn n (sort_by (fun a b => key b <=? key a) l).

(** [top_countries], the only ranked country table the script builds. *)
Definition top_countries (v : DataFrame) : list CountryRow :=
  nlargest 15 c_attacks (country_agg v).


(** ** Insights tab: summary statistics *)

(** [Series.max()]: NaN on a column without values. *)
Definition series_max (col : list (option Z)) : option Z :=
  match dropna col with
  | [] => None
  | x :: t => Some (fold_right Z.max x t)
  end.

(** [Series.idxmax()] on a column without nulls and with the default integer
    index: the position of the first maximum; raises on an empty column. *)
Fixpoint idxmax (l : list Z) : result nat :=
  match l with
  | [] => Raise ValueError
  | x :: t =>
      match idxmax t with
      | Raise _ => Ok O
      | Ok i => if nth i t x <=? x then Ok O else Ok (S i)
      end
  end.

(** [Series.mode()]: the most frequent non-null values, sorted. *)
Definition mode (col : list (option string)) : list string :=
  let vals := dropna col in
  let keys := unique string_dec vals in
  let top := fold_right Nat.max O (map (count_occ string_dec vals) keys) in
  sort_by String.leb
          (filter (fun k => Nat.eqb (count_occ string_dec vals k) top) keys).

(** [.iloc[0]]. *)
Definition iloc0 {A : Type} (l : list A) : result A :=
  match l with
  | [] => Raise IndexError
  | x :: _ => Ok x
  end.

(** [yearly.loc[yearly['attacks'].idxmax(), 'year']]. *)
Definition peak_year (v : DataFrame) : result Z :=
  i <- idxmax (map attacks (yearly v)) ;;
  match nth_error (yearly v) i with
  | Some row => Ok (y_year row)
  | None => Raise KeyError
  end.

Record Summary := mkSummary {
  avg_killed   : option Q;
  avg_wounded  : option Q;
  success_pct  : option Q;
  deadliest    : option Z;
  most_wounded : option Z;
  s_peak_year  : Z;
  top_country  : string;
  top_attack   : string;
  top_target   : string
}.

(** The three columns of the "Summary Statistics" block, in script order; the
    first expression that raises ends the run. *)
Definition summary_statistics (v : DataFrame) : result Summary :=
  let avg_k := mean (dropna (map nkill v)) in
  let avg_w := mean (dropna (map nwound v)) in
  let rate := option_map (Qmult 100) (mean (map success v)) in
  let max_k := series_max (map nkill v) in
  let max_w := series_max (map nwound v) in
  peak <- peak_year v ;;
  c <- iloc0 (mode (map country v)) ;;
  a <- iloc0 (mode (map attack_type v)) ;;
  t <- iloc0 (mode (map target_type v)) ;;
  Ok (mkSummary avg_k avg_w rate max_k max_w peak c a t).

(** ** Map tab: the geo sample *)

Definition notna {A : Type} (o : option A) : bool :=
  match o with
  | Some _ => true
  | None => false
  end.

(** [DataFrame.take(indices)]: positional selection, raising when a position
    is out of range. *)
Fixpoint take {A : Type} (l : list A) (idx : list nat) : result (list A) :=
  match idx with
  | [] => Ok []
  | i :: rest =>
      match nth_error l i with
      | None => Raise IndexError
      | Some x => xs <- take l rest ;; Ok (x :: xs)
      end
  end.

(** What numpy owes the script: [RandomState(seed).choice(pop, size=n,
    replace=False)] is [n] distinct positions below [pop]. *)
Definition choice_contract (choice : Z -> nat -> nat -> list nat) : Prop :=
  forall (seed : Z) (pop n : nat),
    (n <= pop)%nat ->
    length (choice seed pop n) = n
    /\ NoDup (choice seed pop n)
    /\ Forall (fun i => (i < pop)%nat) (choice seed pop n).

(** [DataFrame.sample(n=n, random_state=seed)].  A generator is built from the
    seed on every call, so the draw is a function of the seed and the sizes;
    [choice] stands for numpy's generator. *)
Definition sample (choice : Z -> nat -> nat -> list nat)
  (n : nat) (random_state : Z) (f : DataFrame) : result DataFrame :=
  if (length f <? n)%nat then Raise ValueError
  else take f (choice random_state (length f) n).

(** The rows that carry both coordinates. *)
Definition geo_rows (v : DataFrame) : DataFrame :=
  filter (fun r => notna (latitude r) && notna (longitude r)) v.

(** [map_data] after the sampling step. *)
Definition map_data (choice : Z -> nat -> nat -> list nat) (v : DataFrame)
  : result DataFrame :=
  if (5000 <? length (geo_rows v))%nat
  then sample choice 5000 42 (geo_rows v)
  else Ok (geo_rows v).

(** ** The geo sample and numpy's generator state

    numpy keeps one global generator whose state every unseeded draw
    advances.  [DataFrame.sample(random_state=None)] draws from that global
    generator; [DataFrame.sample(random_state=42)] builds a generator of its
    own from the seed, draws from it, and leaves the global one alone.  A
    session is a sequence of script runs over the same global generator. *)

(** A generator: its states, [RandomState(seed)], and
    [choice(pop, size=n, replace=False)], which returns the positions drawn
    and the state after the draw. *)
Record Generator := mkGenerator {
  rng         : Type;
  RandomState : Z -> rng;
  rng_choice  : rng -> nat -> nat -> list nat * rng
}.

(** What numpy owes the script, from every state: [n] distinct positions
    below [pop]. *)
Definition generator_contract (G : Generator) : Prop :=
  forall (g : rng G) (pop n : nat),
    (n <= pop)%nat ->
    length (fst (rng_choice G g pop n)) = n
    /\ NoDup (fst (rng_choice G g pop n))
    /\ Forall (fun i => (i < pop)%nat) (fst (rng_choice G g pop n)).

(** The draw of a generator fresh from a seed, as a function of the seed. *)
Definition choice_of (G : Generator) (seed : Z) (pop n : nat) : list nat :=
  fst (rng_choice G (RandomState G seed) pop n).

(** [DataFrame.sample(n=n, random_state=random_state)] run with numpy's global
    generator in state [g]: the sample and the global state afterwards. *)
Definition sample_st (G : Generator) (n : nat) (random_state : option Z)
  (f : DataFrame) (g : rng G) : result DataFrame * rng G :=
  if (length f <? n)%nat then (Raise ValueError, g)
  else
    match random_state with
    | Some seed =>
        (take f (fst (rng_choice G (RandomState G seed) (length f) n)), g)
    | None =>
        (take f (fst (rng_choice G g (length f) n)),
         snd (rng_choice G g (length f) n))
    end.

(** Lines 283-287 run with the global generator in state [g]. *)
Definition map_data_st (G : Generator) (v : DataFrame) (g : rng G)
  : result DataFrame * rng G :=
  if (5000 <? length (geo_rows v))%nat
  then sample_st G 5000 (Some 42) (geo_rows v) g
  else (Ok (geo_rows v), g).

(** ** The script's frames as objects

    A pandas frame is a mutable object and a Python variable holds a reference
    to it.  The store below follows the statements that bind or write [df] and
    [df_filtered]: [load_data], the filter block, and the column assignment of
    the decade chart.  The other frames of the script ([yearly], [monthly],
    [map_data], ...) are built by [groupby] or [.copy()] and are objects of
    their own. *)

(** A row of a frame: the cells read from the file and the cells of columns
    the script adds later. *)
Record Row := mkRow {
  base    : Incident;
  derived : list (string * string)
}.

Record Frame := mkFrame {
  columns : list string;
  rows    : list Row
}.

Definition csv_columns : list string :=
  ["year"; "month"; "country"; "city"; "region"; "latitude"; "longitude";
   "attack_type"; "target_type"; "group_name"; "nkill"; "nwound"; "success"].

(** [pd.read_csv] on a file with the rows [d]. *)
Definition read_csv (d : DataFrame) : Frame :=
  mkFrame csv_columns (map (fun r => mkRow r []) d).

Definition loc := nat.
Definition Heap := list Frame.

Record Store := mkStore {
  heap            : Heap;
  df_ref          : loc;
  df_filtered_ref : loc
}.

(** A new object: the next free location. *)
Definition alloc (f : Frame) (h : Heap) : Heap * loc :=
  (h ++ [f], length h).

(** Locations come from [alloc] and are always bound; the default is never
    read. *)
Definition deref (h : Heap) (l : loc) : Frame :=
  nth l h (mkFrame [] []).

Fixpoint update (h : Heap) (l : loc) (f : Frame) : Heap :=
  match h, l with
  | [], _ => []
  | _ :: t, O => f :: t
  | x :: t, S l' => x :: update t l' f
  end.

(** [frame[mask]]: a new frame with the selected rows. *)
Definition getitem_mask (p : Incident -> bool) (l : loc) (h : Heap)
  : Heap * loc :=
  let f := deref h l in
  alloc (mkFrame (columns f) (filter (fun r => p (base r)) (rows f))) h.

(** [frame.copy()]. *)
Definition copy (l : loc) (h : Heap) : Heap * loc :=
  alloc (deref h l) h.

(** [frame[name] = values], in place: the column is appended when it is new and
    overwritten when it exists. *)
Definition set_column (name : string) (cell : Incident -> string) (f : Frame)
  : Frame :=
  mkFrame
    (if existsb (String.eqb name) (columns f) then columns f
     else columns f ++ [name])
    (map (fun r =>
            mkRow (base r)
                  ((name, cell (base r))
                   :: filter (fun kv => negb (String.eqb (fst kv) name))
                             (derived r)))
         (rows f)).

Definition setitem (name : string) (cell : Incident -> string) (l : loc)
  (h : Heap) : Heap :=
  update h l (set_column name cell (deref h l)).

(** [(df_filtered['year'] // 10 * 10).astype(str) + 's']. *)
Definition decade_label (r : Incident) : string :=
  (NilZero.string_of_int (Z.to_int (year r / 10 * 10)) ++ "s")%string.

(** [df = load_data()]. *)
Definition load_data (d : DataFrame) : Heap * loc :=
  alloc (read_csv d) [].

(** Lines 169-180, on the store. *)
Definition run_filters (d : DataFrame) (c : FilterCriteria) : Store :=
  let '(h, df) := load_data d in
  let '(h, cur) := getitem_mask (year_mask c) df h in
  let '(h, cur) := copy cur h in
  let '(h, cur) :=
    if region_set c then getitem_mask (region_mask c) cur h else (h, cur) in
  let '(h, cur) :=
    if country_set c then getitem_mask (country_mask c) cur h else (h, cur) in
  let '(h, cur) :=
    if attack_set c then getitem_mask (attack_mask c) cur h else (h, cur) in
  let '(h, cur) :=
    match success_filter c with
    | Successful => getitem_mask (fun r => success r =? 1) cur h
    | Failed => getitem_mask (fun r => success r =? 0) cur h
    | All => (h, cur)
    end in
  mkStore h df cur.

(** Line 272: [df_filtered['decade'] = ...]. *)
Definition assign_decade (s : Store) : Store :=
  mkStore (setitem "decade" decade_label (df_filtered_ref s) (heap s))
          (df_ref s) (df_filtered_ref s).

(** The rows of the frame bound to [df_filtered], file columns only. *)
Definition frame_view (s : Store) : DataFrame :=
  map base (rows (deref (heap s) (df_filtered_ref s))).

(** ** Sidebar: the select boxes and the database info *)

(** [sorted(series.dropna().unique().tolist())]. *)
Definition sorted_unique (col : list (option string)) : list string :=
  sort_by String.leb (unique string_dec (dropna col)).

(** [regions]. *)
Definition region_options (df : DataFrame) : list string :=
  "All Regions" :: sorted_unique (map region df).

(** [countries]: rebuilt from the rows of the selected region, or from the
    whole dataset when no region is selected. *)
Definition country_options (df : DataFrame) (selected : string) : list string :=
  if negb (String.eqb selected "All Regions")
  then "All Countries"
       :: sorted_unique
            (map country (filter (fun r => str_eq (region r) selected) df))
  else "All Countries" :: sorted_unique (map country df).

(** [attack_types]. *)
Definition attack_options (df : DataFrame) : list string :=
  "All Types" :: sorted_unique (map attack_type df).

(** [Series.nunique()]. *)
Definition nunique (col : list (option string)) : nat :=
  length (unique string_dec (dropna col)).

(** ** Key metrics *)

Record Kpi := mkKpi {
  total_attacks    : Z;
  total_killed     : Z;
  total_wounded    : Z;
  total_casualties : Z;
  kpi_success_rate : option Q
}.

(** The five [st.metric] values. *)
Definition kpi_metrics (v : DataFrame) : Kpi :=
  mkKpi (Z.of_nat (length v))
        (col_sum (map nkill v))
        (col_sum (map nwound v))
        (col_sum (map nkill v) + col_sum (map nwound v))
        (option_map (Qmult 100) (mean (map success v))).

(** ** Trends tab: month and decade charts *)

Fixpoint mapM {A B : Type} (f : A -> result B) (l : list A)
  : result (list B) :=
  match l with
  | [] => Ok []
  | x :: t => y <- f x ;; ys <- mapM f t ;; Ok (y :: ys)
  end.

(** [list[i]] in Python: a negative index counts from the end, an index
    outside [-len, len) raises. *)
Definition py_getitem {A : Type} (l : list A) (i : Z) : result A :=
  let n := Z.of_nat (length l) in
  let j := if i <? 0 then i + n else i in
  if (0 <=? j) && (j <? n) then
    match nth_error l (Z.to_nat j) with
    | Some x => Ok x
    | None => Raise IndexError
    end
  else Raise IndexError.

Definition month_names : list string :=
  ["Jan"; "Feb"; "Mar"; "Apr"; "May"; "Jun"; "Jul"; "Aug"; "Sep"; "Oct";
   "Nov"; "Dec"].

Record MonthlyRow := mkMonthly {
  m_month    : Z;
  m_attacks  : Z;
  month_name : string
}.

(** [groupby('month').size()], the rows with a month between 1 and 12, and
    the name looked up at [month - 1]. *)
Definition monthly (v : DataFrame) : result (list MonthlyRow) :=
  let sizes :=
    map (fun g => (fst g, Z.of_nat (length (snd g)))) (groupby_Z month v) in
  let kept := filter (fun g => (1 <=? fst g) && (fst g <=? 12)) sizes in
  mapM (fun g =>
          name <- py_getitem month_names (fst g - 1) ;;
          Ok (mkMonthly (fst g) (snd g) name))
       kept.


(** ** Map tab: marker size and regional totals *)

(** [Series.fillna(d)] and [Series.clip(lower, upper)], cell by cell. *)
Definition fillna (d : Z) (x : option Z) : Z :=
  match x with
  | Some k => k
  | None => d
  end.

Definition clip (lower upper x : Z) : Z := Z.min upper (Z.max lower x).

(** [map_data['size']]. *)
Definition marker_size (r : Incident) : Z := clip 1 100 (fillna 1 (nkill r)).

Record RegionRow := mkRegionRow {
  r_region  : string;
  r_killed  : Z;
  r_attacks : Z
}.

(** [region_stats], the table of the sunburst. *)
Definition region_stats (v : DataFrame) : list RegionRow :=
  map (fun g =>
         mkRegionRow (fst g) (col_sum (map nkill (snd g)))
                     (Z.of_nat (length (snd g))))
      (groupby_str region v).

(** ** Attacks tab *)

(** [attack_counts]. *)
Definition attack_counts (v : DataFrame) : list (string * Z) :=
  value_counts (map attack_type v).

(** [target_counts]: [value_counts().head(10)]. *)
Definition target_counts (v : DataFrame) : list (string * Z) :=
  firstn 10 (value_counts (map target_type v)).

Record AttackEff := mkAttackEff {
  e_attack_type   : string;
  e_success_rate  : option Q;
  e_avg_killed    : option Q;
  e_total_attacks : Z
}.

(** [attack_eff], with [success_rate] already multiplied by 100. *)
Definition attack_eff (v : DataFrame) : list AttackEff :=
  map (fun g =>
         mkAttackEff (fst g)
                     (option_map (Qmult 100) (mean (map success (snd g))))
                     (mean (dropna (map nkill (snd g))))
                     (Z.of_nat (length (snd g))))
      (groupby_str attack_type v).

(** ** Groups tab *)

(** [series != 'Unknown']: NaN compares unequal to everything, so a row
    without a group name passes. *)
Definition not_unknown (g : option string) : bool :=
  match g with
  | Some x => negb (String.eqb x "Unknown")
  | None => true
  end.

Definition df_groups (v : DataFrame) : DataFrame :=
  filter (fun r => not_unknown (group_name r)) v.

(** ['min'] and ['max'] of the never-null [year] inside a group; a group holds
    at least one row, the value on no rows is not read. *)
Definition year_min (l : list Z) : Z :=
  match l with
  | [] => 0
  | y :: t => fold_right Z.min y t
  end.

Definition year_max (l : list Z) : Z :=
  match l with
  | [] => 0
  | y :: t => fold_right Z.max y t
  end.

Record GroupRow := mkGroupRow {
  g_name       : string;
  g_killed     : Z;
  g_wounded    : Z;
  g_attacks    : Z;
  first_year   : Z;
  last_year    : Z;
  years_active : Z
}.

(** [top_groups], with the derived [years_active] column. *)
Definition top_groups (v : DataFrame) : list GroupRow :=
  map (fun g =>
         let ys := map year (snd g) in
         mkGroupRow (fst g)
                    (col_sum (map nkill (snd g)))
                    (col_sum (map nwound (snd g)))
                    (Z.of_nat (length (snd g)))
                    (year_min ys) (year_max ys)
                    (year_max ys - year_min ys + 1))
      (groupby_str group_name (df_groups v)).

Definition top15_attacks (v : DataFrame) : list GroupRow :=
  nlargest 15 g_attacks (top_groups v).

Definition top15_deadly (v : DataFrame) : list GroupRow :=
  nlargest 15 g_killed (top_groups v).

(** [top5]: the names of the five most active groups. *)
Definition top5 (v : DataFrame) : list string :=
  map g_name (nlargest 5 g_attacks (top_groups v)).

(** [series.isin(values)]. *)
Definition isin (g : option string) (values : list string) : bool :=
  match g with
  | Some x => existsb (String.eqb x) values
  | None => false
  end.

(** Lexicographic order on (year, name) keys. *)
Definition year_name_leb (a b : Z * string) : bool :=
  (fst a <? fst b) || ((fst a =? fst b) && String.leb (snd a) (snd b)).

Definition year_name_dec (a b : Z * string) : {a = b} + {a <> b}.
Proof. decide equality; [apply string_dec | apply Z.eq_dec]. Defined.

(** The (year, name) keys of the rows that have a name. *)
Fixpoint year_name_keys (key : Incident -> option string) (v : DataFrame)
  : list (Z * string) :=
  match v with
  | [] => []
  | r :: t =>
      match key r with
      | Some k => (year r, k) :: year_name_keys key t
      | None => year_name_keys key t
      end
  end.

(** [groupby(['year', key]).size().reset_index(name='attacks')]: one row per
    (year, name) pair that occurs, in ascending order. *)
Definition size_by_year_and (key : Incident -> option string) (v : DataFrame)
  : list (Z * string * Z) :=
  map (fun k =>
         (fst k, snd k,
          Z.of_nat
            (length (filter (fun r => (year r =? fst k) && str_eq (key r) (snd k))
                            v))))
      (sort_by year_name_leb (unique year_name_dec (year_name_keys key v))).

(** [group_timeline]. *)
Definition group_timeline (v : DataFrame) : list (Z * string * Z) :=
  size_by_year_and group_name
    (filter (fun r => isin (group_name r) (top5 v)) (df_groups v)).

(** [region_yearly], built only when no region is selected. *)
Definition region_yearly (c : FilterCriteria) (v : DataFrame)
  : option (list (Z * string * Z)) :=
  if String.eqb (selected_region c) "All Regions"
  then Some (size_by_year_and region v)
  else None.

(** ** Insights tab: heatmap and regional rates *)

(** The rows [pd.crosstab] counts: those with a region and an attack type. *)
Definition crosstab_rows (v : DataFrame) : DataFrame :=
  filter (fun r => notna (region r) && notna (attack_type r)) v.

Definition crosstab_index (v : DataFrame) : list string :=
  sorted_unique (map region (crosstab_rows v)).

Definition crosstab_columns (v : DataFrame) : list string :=
  sorted_unique (map attack_type (crosstab_rows v)).

(** [heatmap_data]: one line per region, one cell per attack type, the cell
    holding the number of rows of that pair. *)
Definition crosstab (v : DataFrame) : list (string * list Z) :=
  map (fun reg =>
         (reg,
          map (fun a =>
                 Z.of_nat
                   (length (filter (fun r => str_eq (region r) reg
                                             && str_eq (attack_type r) a) v)))
              (crosstab_columns v)))
      (crosstab_index v).

(** Ascending order of a float column under [sort_values]: NaN comes last. *)
Definition rate_leb (a b : option Q) : bool :=
  match a, b with
  | Some x, Some y => Qle_bool x y
  | _, None => true
  | None, Some _ => false
  end.

(** [success_region]: the success rate per region in percent, ascending.
    pandas does not fix the order of equal rates; the model keeps them in
    order of the region name. *)
Definition success_region (v : DataFrame) : list (string * option Q) :=
  sort_by (fun a b => rate_leb (snd a) (snd b))
          (map (fun g =>
                  (fst g, option_map (Qmult 100) (mean (map success (snd g)))))
               (groupby_str region v)).

(** [lethality]: the mean death toll per region, ascending. *)
Definition lethality (v : DataFrame) : list (string * option Q) :=
  sort_by (fun a b => rate_leb (snd a) (snd b))
          (map (fun g => (fst g, mean (dropna (map nkill (snd g)))))
               (groupby_str region v)).

(** ** Data tab *)

Inductive arith_exn := ZeroDivisionError.

(** [len(df_filtered) / len(df) * 100]. *)
Definition percent_of_total (df v : DataFrame) : arith_exn + Q :=
  match length df with
  | O => inl ZeroDivisionError
  | S _ =>
      inr ((Z.of_nat (length v) # Pos.of_nat (length df)) * 100)%Q
  end.

(** [sort_values('year', ascending=False).head(1000)]: the table under
    "Filtered Data Explorer".  pandas does not fix the order of rows of the
    same year; the model keeps them in frame order. *)
Definition data_table (v : DataFrame) : DataFrame :=
  firstn 1000 (sort_by (fun a b => year b <=? year a) v).

(** ** Vocabulary of the statements *)

Definition Zsum (l : list Z) : Z := fold_right Z.add 0 l.

(** A criteria value with another outcome selected. *)
Definition with_outcome (c : FilterCriteria) (o : Outcome) : FilterCriteria :=
  mkCriteria (year_range c) (selected_region c) (selected_country c)
             (selected_attack c) o.

(** The rows of [df] a country select box is built from. *)
Definition in_selected_region (sel : string) (r : Incident) : Prop :=
  sel = "All Regions" \/ region r = Some sel.

(** Whether a column holds at least one value. *)
Definition has_value {A : Type} (col : list (option A)) : bool :=
  existsb notna col.

(** The three columns whose mode the summary block prints. *)
Definition summary_columns_have_values (v : DataFrame) : bool :=
  has_value (map country v) && has_value (map attack_type v)
  && has_value (map target_type v).

(** ** Concrete inputs *)

(** Region "A" with the slider at its default, 2000-2001: the only record of
    region "A" dates from 1999, so no row is left. *)
Definition empty_view_criteria : FilterCriteria :=
  mkCriteria (2000, 2001) "A" "All Countries" "All Types" All.

(** Failed attacks of region "B" since 2000: three selections switched on. *)
Definition failed_in_B : FilterCriteria :=
  mkCriteria (2000, 2001) "B" "All Countries" "All Types" Failed.

(** Two attack types with two records each. *)
Definition clip_row (a : string) (k : Z) : Incident :=
  mkIncident 2001 1 (Some "X") None (Some "A") None None (Some a)
             None None (Some k) None 1.

Definition clip_view : DataFrame :=
  [clip_row "Bombing" 1; clip_row "Bombing" 2;
   clip_row "Assault" 100; clip_row "Assault" 200].

(** One attack type, the death tolls 1 to 100. *)
Definition hundred_view : DataFrame :=
  map (fun n => clip_row "Bombing" (Z.of_nat n)) (seq 1 100).

(** A record with coordinates, 5001 times over. *)
Definition geo_row : Incident :=
  mkIncident 2001 1 (Some "X") None (Some "A") (Some 0%Q) (Some 0%Q)
             (Some "Bombing") None None None None 1.

Definition geo_view : DataFrame := repeat geo_row 5001.

(** A generator whose state is a counter: from an even state it draws the
    first positions, from an odd state the last ones, and every draw moves
    the counter on. *)
Definition alternating : Generator :=
  mkGenerator nat Z.to_nat
    (fun g pop n =>
       (if Nat.even g then seq 0 n else seq (pop - n) n, S g)).

(** Three records with coordinates, told apart by their year. *)
Definition numbered_row (y : Z) : Incident :=
  mkIncident y 1 (Some "X") None (Some "A") (Some 0%Q) (Some 0%Q)
             (Some "Bombing") None None None None 1.

Definition numbered_view : DataFrame :=
  [numbered_row 2001; numbered_row 2002; numbered_row 2003].

(** A generator that always draws the first positions. *)
Definition first_positions (seed : Z) (pop n : nat) : list nat := seq 0 n.



(** ** Filter engine: proofs *)

Lemma filter_filter {A : Type} (p q : A -> bool) (l : list A) :
  filter p (filter q l) = filter (fun x => q x && p x) l.
Proof.
  induction l as [|a l IH]; simpl; [reflexivity|].
  destruct (q a); simpl; [destruct (p a)|]; now rewrite IH.
Qed.

Lemma filter_true {A : Type} (l : list A) : filter (fun _ => true) l = l.
Proof. induction l; simpl; congruence. Qed.

Lemma filter_opt {A : Type} (b : bool) (p : A -> bool) (l : list A) :
  (if b then filter p l else l) = filter (fun x => if b then p x else true) l.
Proof. destruct b; [reflexivity | now rewrite filter_true]. Qed.

Lemma filter_outcome (c : FilterCriteria) (l : DataFrame) :
  match success_filter c with
  | Successful => filter (fun r => success r =? 1) l
  | Failed => filter (fun r => success r =? 0) l
  | All => l
  end = filter (outcome_mask c) l.
Proof.
  unfold outcome_mask. destruct (success_filter c); try reflexivity.
  now rewrite filter_true.
Qed.

(** The cascade of masks is one selection by the conjunction of the masks. *)
Lemma apply_filters_satisfies (df : DataFrame) (c : FilterCriteria) :
  apply_filters df c = filter (satisfies c) df.
Proof.
  unfold apply_filters. cbv zeta.
  rewrite filter_outcome, !filter_opt, !filter_filter.
  apply filter_ext. intros r. unfold satisfies. now rewrite !andb_assoc.
Qed.

Lemma apply_filters_passes (df : DataFrame) (c : FilterCriteria) :
  apply_filters df c = run_passes (passes c) df.
Proof.
  unfold apply_filters, passes, run_passes.
  destruct (region_set c), (country_set c), (attack_set c), (success_filter c);
    reflexivity.
Qed.

Lemma run_passes_conj (ps : list (Incident -> bool)) (df : DataFrame) :
  run_passes ps df = filter (fun r => forallb (fun p => p r) ps) df.
Proof.
  unfold run_passes. revert df.
  induction ps as [|p ps IH]; intros df; simpl.
  - now rewrite filter_true.
  - rewrite IH. apply filter_filter.
Qed.

Lemma forallb_perm {A : Type} (f : A -> bool) (l l' : list A) :
  Permutation l l' -> forallb f l = forallb f l'.
Proof.
  induction 1 as [|x l l' _ IH|x y l|l l' l'' _ IH1 _ IH2]; simpl.
  - reflexivity.
  - now rewrite IH.
  - now rewrite !andb_assoc, (andb_comm (f y)).
  - congruence.
Qed.

Lemma filter_length_le {A : Type} (p : A -> bool) (l : list A) :
  (length (filter p l) <= length l)%nat.
Proof.
  induction l as [|a l IH]; simpl; [lia|]. destruct (p a); simpl; lia.
Qed.

Lemma str_eq_true (v : option string) (s : string) :
  str_eq v s = true <-> v = Some s.
Proof.
  destruct v as [x|]; simpl.
  - rewrite String.eqb_eq. split; congruence.
  - split; discriminate.
Qed.

(** C5: the filtered view is never larger than the dataset, each of its rows
    is a dataset row that passes every predicate that is switched on (year in
    the inclusive range; region, country and attack type equal to the
    selection unless the selection is the "All ..." entry; outcome as chosen),
    and the cascade is the selection by the conjunction of the predicates, so
    the passes taken in any other order give the same view. *)
Theorem filter_sound_and_conjunctive (df : DataFrame) (c : FilterCriteria) :
  (length (apply_filters df c) <= length df)%nat
  /\ Forall (fun r =>
               In r df
               /\ fst (year_range c) <= year r <= snd (year_range c)
               /\ (selected_region c = "All Regions"
                   \/ region r = Some (selected_region c))
               /\ (selected_country c = "All Countries"
                   \/ country r = Some (selected_country c))
               /\ (selected_attack c = "All Types"
                   \/ attack_type r = Some (selected_attack c))
               /\ match success_filter c with
                  | All => True
                  | Successful => success r = 1
                  | Failed => success r = 0
                  end)
            (apply_filters df c)
  /\ apply_filters df c = filter (satisfies c) df
  /\ (forall ps, Permutation (passes c) ps ->
                 run_passes ps df = apply_filters df c).
Proof.
  split; [rewrite apply_filters_satisfies; apply filter_length_le|].
  split; [|split; [apply apply_filters_satisfies|]].
  - rewrite apply_filters_satisfies.
    apply Forall_forall. intros r Hr. apply filter_In in Hr as [Hin Hs].
    split; [exact Hin|]. unfold satisfies in Hs.
    apply andb_true_iff in Hs as [Hs Ho].
    apply andb_true_iff in Hs as [Hs Ha].
    apply andb_true_iff in Hs as [Hs Hc].
    apply andb_true_iff in Hs as [Hy Hg].
    unfold year_mask in Hy. apply andb_true_iff in Hy as [Hlo Hhi].
    split; [lia|].
    split; [|split; [|split]].
    + unfold region_set, region_mask in *.
      destruct (String.eqb_spec (selected_region c) "All Regions");
        simpl in *; [now left | right; now apply str_eq_true].
    + unfold country_set, country_mask in *.
      destruct (String.eqb_spec (selected_country c) "All Countries");
        simpl in *; [now left | right; now apply str_eq_true].
    + unfold attack_set, attack_mask in *.
      destruct (String.eqb_spec (selected_attack c) "All Types");
        simpl in *; [now left | right; now apply str_eq_true].
    + unfold outcome_mask in *. destruct (success_filter c); [exact I|lia|lia].
  - intros ps Hperm.
    rewrite apply_filters_passes, !run_passes_conj.
    apply filter_ext. intros r. symmetry. now apply forallb_perm.
Qed.

Lemma filter_sound_and_conjunctive_witness :
  run_passes (rev (passes failed_in_B)) scenario_dataset
  = apply_filters scenario_dataset failed_in_B.
Proof.
  apply (proj2 (proj2 (proj2
           (filter_sound_and_conjunctive scenario_dataset failed_in_B)))).
  apply Permutation_rev.
Defined.

(** C7: a second pass of the same criteria over the filtered view changes
    nothing. *)
Theorem filter_idempotent (d : DataFrame) (c : FilterCriteria) :
  apply_filters (apply_filters d c) c = apply_filters d c.
Proof.
  rewrite !apply_filters_satisfies, filter_filter.
  apply filter_ext. intros r. now destruct (satisfies c r).
Qed.

(** C6: on the two-record dataset with the year range 2000-2020 and nothing
    else selected, the view is the 2001 record alone and the yearly trend is
    the single row (2001, killed 0, wounded 0, attacks 1, success rate 0). *)
Theorem scenario_view_and_trend :
  apply_filters scenario_dataset scenario_criteria = [scenario_row2]
  /\ yearly (apply_filters scenario_dataset scenario_criteria)
     = [mkYearly 2001 0 0 1 (Some 0%Q)].
Proof. split; reflexivity. Qed.

(** ** The year slider: proofs *)

Lemma fold_max_spec (x : Z) (t : list Z) :
  In (fold_right Z.max x t) (x :: t)
  /\ Forall (fun y => y <= fold_right Z.max x t) (x :: t).
Proof.
  induction t as [|a t [IHin IHall]]; simpl.
  - split; [now left|]. constructor; [lia|constructor].
  - inversion IHall as [|? ? Hx Ht]; subst. split.
    + destruct (Z.max_spec a (fold_right Z.max x t)) as [[_ ->]|[_ ->]].
      * destruct IHin as [Heq|Hin]; [left; exact Heq | right; right; exact Hin].
      * right; now left.
    + constructor; [lia|]. constructor; [lia|].
      eapply Forall_impl; [|exact Ht]. simpl. intros; lia.
Qed.

Lemma fold_min_spec (x : Z) (t : list Z) :
  In (fold_right Z.min x t) (x :: t)
  /\ Forall (fun y => fold_right Z.min x t <= y) (x :: t).
Proof.
  induction t as [|a t [IHin IHall]]; simpl.
  - split; [now left|]. constructor; [lia|constructor].
  - inversion IHall as [|? ? Hx Ht]; subst. split.
    + destruct (Z.min_spec a (fold_right Z.min x t)) as [[_ ->]|[_ ->]].
      * right; now left.
      * destruct IHin as [Heq|Hin]; [left; exact Heq | right; right; exact Hin].
    + constructor; [lia|]. constructor; [lia|].
      eapply Forall_impl; [|exact Ht]. simpl. intros; lia.
Qed.

Lemma slider_bounds_spec (df : DataFrame) (lo hi : Z) :
  slider_bounds df = Ok (lo, hi) ->
  In lo (map year df) /\ In hi (map year df)
  /\ Forall (fun r => lo <= year r <= hi) df.
Proof.
  unfold slider_bounds, col_min, col_max.
  destruct df as [|r df]; simpl; [discriminate|].
  intros H. injection H as <- <-.
  destruct (fold_min_spec (year r) (map year df)) as [Hmi Hma].
  destruct (fold_max_spec (year r) (map year df)) as [Hxi Hxa].
  split; [exact Hmi|]. split; [exact Hxi|].
  change (Forall (fun r0 => fold_right Z.min (year r) (map year df) <= year r0
                            <= fold_right Z.max (year r) (map year df))
                 (r :: df)).
  apply Forall_forall. intros r0 Hr0.
  rewrite Forall_forall in Hma, Hxa.
  pose proof (in_map year _ _ Hr0) as Hy.
  split; [apply Hma | apply Hxa]; exact Hy.
Qed.

(** C3, counterexample: on the two-record dataset the slider runs from 1999 to
    2001 but its default selection starts at 2000, and the default view leaves
    the 1999 record out. *)
Lemma default_range_skips_early_years :
  slider_bounds scenario_dataset = Ok (1999, 2001)
  /\ default_year_range scenario_dataset = Ok (2000, 2001)
  /\ apply_filters scenario_dataset (default_criteria (2000, 2001))
     = [scenario_row2].
Proof. repeat split; reflexivity. Qed.

(** C3, as the script has it: the slider's end stops are the smallest and the
    largest year of the dataset; its default selection runs from 2000 to the
    largest year, and the default view is the set of rows dated 2000 or
    later.  Stated for a dataset whose years reach 2000 from both sides, where
    the default selection lies between the end stops. *)
Theorem default_year_range_from_2000 (df : DataFrame) (lo hi : Z) :
  slider_bounds df = Ok (lo, hi) ->
  lo <= 2000 <= hi ->
  In lo (map year df) /\ In hi (map year df)
  /\ Forall (fun r => lo <= year r <= hi) df
  /\ default_year_range df = Ok (2000, hi)
  /\ apply_filters df (default_criteria (2000, hi))
     = filter (fun r => 2000 <=? year r) df.
Proof.
  intros Hb _. destruct (slider_bounds_spec df lo hi Hb) as (Hlo & Hhi & Hall).
  repeat (split; [assumption|]). split.
  - unfold default_year_range. now rewrite Hb.
  - rewrite apply_filters_satisfies. apply filter_ext_in. intros r Hr.
    rewrite Forall_forall in Hall. specialize (Hall r Hr).
    unfold satisfies, year_mask, outcome_mask. simpl.
    rewrite !andb_true_r. destruct (Z.leb_spec (year r) hi); [|lia].
    now rewrite andb_true_r.
Qed.

Lemma default_year_range_from_2000_witness :
  In 1999 (map year scenario_dataset) /\ In 2001 (map year scenario_dataset)
  /\ Forall (fun r => 1999 <= year r <= 2001) scenario_dataset
  /\ default_year_range scenario_dataset = Ok (2000, 2001)
  /\ apply_filters scenario_dataset (default_criteria (2000, 2001))
     = filter (fun r => 2000 <=? year r) scenario_dataset.
Proof.
  apply (default_year_range_from_2000 scenario_dataset 1999 2001);
    [reflexivity | lia].
Defined.

(** ** Summary statistics on an empty view *)

(** C1: region "A" with the years 2000-2001 leaves no row of the two-record
    dataset.  The aggregations of the empty view are empty or zero, the maxima
    and means are NaN, but the peak-year lookup raises [ValueError] and each
    [mode().iloc[0]] raises [IndexError]: the summary block ends the run with
    an exception. *)
Theorem summary_raises_on_empty_view :
  apply_filters scenario_dataset empty_view_criteria = []
  /\ yearly [] = []
  /\ country_counts [] = []
  /\ top_countries [] = []
  /\ boxplot_input [] = []
  /\ col_sum (map nkill []) = 0
  /\ series_max (map nkill []) = None
  /\ mean (dropna (map nkill [])) = None
  /\ peak_year [] = Raise ValueError
  /\ iloc0 (mode (map country [])) = Raise IndexError
  /\ iloc0 (mode (map attack_type [])) = Raise IndexError
  /\ iloc0 (mode (map target_type [])) = Raise IndexError
  /\ summary_statistics (apply_filters scenario_dataset empty_view_criteria)
     = Raise ValueError.
Proof. repeat split; reflexivity. Qed.

(** ** Sorting: proofs *)

Section SortingFacts.
Context {A : Type} (leb : A -> A -> bool).

Lemma insert_by_perm (x : A) (l : list A) :
  Permutation (insert_by leb x l) (x :: l).
Proof.
  induction l as [|y t IH]; simpl; [reflexivity|].
  destruct (leb x y); [reflexivity|].
  rewrite IH. apply perm_swap.
Qed.

Lemma sort_by_perm (l : list A) : Permutation (sort_by leb l) l.
Proof.
  induction l as [|x t IH]; simpl; [reflexivity|].
  rewrite insert_by_perm. now constructor.
Qed.

Lemma sort_by_In (l : list A) (x : A) : In x (sort_by leb l) <-> In x l.
Proof.
  split; apply Permutation_in;
    [apply sort_by_perm | symmetry; apply sort_by_perm].
Qed.

Lemma sort_by_length (l : list A) : length (sort_by leb l) = length l.
Proof. apply Permutation_length, sort_by_perm. Qed.

Hypothesis leb_total : forall x y, leb x y = true \/ leb y x = true.
Hypothesis leb_trans :
  forall x y z, leb x y = true -> leb y z = true -> leb x z = true.

Lemma insert_by_sorted (x : A) (l : list A) :
  StronglySorted (fun a b => leb a b = true) l ->
  StronglySorted (fun a b => leb a b = true) (insert_by leb x l).
Proof.
  induction 1 as [|y t Hs IH Hy]; simpl.
  - constructor; constructor.
  - destruct (leb x y) eqn:E.
    + constructor; [now constructor|].
      constructor; [exact E|].
      eapply Forall_impl; [|exact Hy]. simpl. intros z Hz.
      eapply leb_trans; eassumption.
    + constructor; [exact IH|].
      assert (Hyx : leb y x = true)
        by (destruct (leb_total x y); congruence).
      eapply Permutation_Forall;
        [symmetry; apply insert_by_perm|].
      now constructor.
Qed.

Lemma sort_by_sorted (l : list A) :
  StronglySorted (fun a b => leb a b = true) (sort_by leb l).
Proof.
  induction l as [|x t IH]; simpl; [constructor|].
  now apply insert_by_sorted.
Qed.
End SortingFacts.

Lemma sort_Z_sorted (l : list Z) : StronglySorted Z.le (sort_by Z.leb l).
Proof.
  assert (H : StronglySorted (fun a b => Z.leb a b = true) (sort_by Z.leb l)).
  { apply sort_by_sorted; intros; lia. }
  induction H; constructor; [assumption|].
  eapply Forall_impl; [|eassumption]. simpl. intros; lia.
Qed.

Lemma sorted_nth_le (s : list Z) (d : Z) :
  StronglySorted Z.le s ->
  forall i j : nat, (i <= j < length s)%nat -> nth i s d <= nth j s d.
Proof.
  induction 1 as [|x t Hs IH Hx]; intros i j Hij; simpl in *; [lia|].
  destruct i as [|i], j as [|j]; try lia.
  - rewrite Forall_forall in Hx. apply Hx, nth_In. lia.
  - apply IH. lia.
Qed.

(** ** The lethality clip: proofs *)

Lemma dropna_notna (v : DataFrame) :
  dropna (map nkill (filter (fun r => notna (nkill r)) v))
  = dropna (map nkill v).
Proof.
  induction v as [|r v IH]; simpl; [reflexivity|].
  destruct (nkill r) as [k|] eqn:E; simpl; [rewrite E, IH|]; congruence.
Qed.

(** The comparison with the interpolated threshold, cleared of fractions. *)
Lemma le_interpolated (x a b g : Z) :
  Qle_bool (inject_Z x) (inject_Z a + inject_Z g / 20 * inject_Z (b - a))%Q
  = true
  <-> 20 * x <= 20 * a + g * (b - a).
Proof.
  rewrite Qle_bool_iff. unfold Qle, Qplus, Qmult, Qdiv, Qinv, inject_Z.
  cbn -[Z.mul Z.add Z.sub Z.le]. lia.
Qed.

(** The threshold of a column with exactly 100 values: one twentieth of the
    way from the 95th to the 96th smallest. *)
Lemma quantile95_100 (col : list (option Z)) :
  length (dropna col) = 100%nat ->
  let s := sort_by Z.leb (dropna col) in
  quantile95 col
  = Some (inject_Z (nth 94 s 0%Z)
          + inject_Z 1 / 20 * inject_Z (nth 95 s 0%Z - nth 94 s 0%Z)%Z)%Q.
Proof.
  intros Hlen s. unfold quantile95. fold s.
  assert (Hs : length s = 100%nat)
    by (unfold s; now rewrite sort_by_length).
  destruct s as [|x0 t] eqn:E; [discriminate|].
  rewrite Hs.
  change (Z.to_nat (19 * (Z.of_nat 100 - 1) / 20)) with 94%nat.
  change (Z.to_nat (Z.min (19 * (Z.of_nat 100 - 1) / 20 + 1)
                          (Z.of_nat 100 - 1))) with 95%nat.
  change ((19 * (Z.of_nat 100 - 1)) mod 20) with 1.
  rewrite (nth_indep (x0 :: t) x0 0), (nth_indep (x0 :: t) x0 0 (n := 95));
    [reflexivity | rewrite Hs; lia | rewrite Hs; lia].
Qed.

Lemma filter_perm_length {A : Type} (p : A -> bool) (l l' : list A) :
  Permutation l l' -> length (filter p l) = length (filter p l').
Proof.
  induction 1 as [|x l l' _ IH|x y l|l l' l'' _ IH1 _ IH2]; simpl.
  - reflexivity.
  - destruct (p x); simpl; congruence.
  - destruct (p x), (p y); reflexivity.
  - congruence.
Qed.

Lemma filter_all_true {A : Type} (p : A -> bool) (l : list A) :
  Forall (fun x => p x = true) l -> filter p l = l.
Proof.
  induction 1 as [|x l Hx _ IH]; simpl; [reflexivity|]. now rewrite Hx, IH.
Qed.

Lemma filter_all_false {A : Type} (p : A -> bool) (l : list A) :
  Forall (fun x => p x = false) l -> filter p l = [].
Proof.
  induction 1 as [|x l Hx _ IH]; simpl; [reflexivity|]. now rewrite Hx.
Qed.

(** On a column without nulls the clip counts as on its values. *)
Lemma filter_nkill_length (p : Z -> bool) (v : DataFrame) :
  Forall (fun r => exists k, nkill r = Some k) v ->
  length (filter (fun r => match nkill r with
                           | Some k => p k
                           | None => false
                           end) v)
  = length (filter p (dropna (map nkill v))).
Proof.
  induction 1 as [|r v [k Hk] _ IH]; simpl; [reflexivity|].
  rewrite Hk. simpl. destruct (p k); simpl; congruence.
Qed.

Lemma dropna_all_some (v : DataFrame) :
  Forall (fun r => exists k, nkill r = Some k) v ->
  map Some (dropna (map nkill v)) = map nkill v.
Proof.
  induction 1 as [|r v [k Hk] _ IH]; simpl; [reflexivity|].
  rewrite Hk. simpl. congruence.
Qed.

(** In a sorted list of 100 distinct values, a bound that separates the 95th
    from the 96th lets exactly 95 of them through. *)
Lemma sorted_cut_95 (s : list Z) (p : Z -> bool) :
  length s = 100%nat ->
  StronglySorted Z.le s ->
  (forall x, x <= nth 94 s 0 -> p x = true) ->
  (forall x, nth 95 s 0 <= x -> p x = false) ->
  length (filter p s) = 95%nat.
Proof.
  intros Hlen Hs Hlow Hhigh.
  rewrite <- (firstn_skipn 95 s), filter_app, length_app.
  rewrite filter_all_true, filter_all_false.
  - rewrite length_firstn, Hlen. reflexivity.
  - apply Forall_forall. intros x Hx.
    destruct (In_nth _ _ 0 Hx) as (i & Hi & <-).
    rewrite length_skipn, Hlen in Hi.
    rewrite nth_skipn. apply Hhigh.
    apply sorted_nth_le; [exact Hs | lia].
  - apply Forall_forall. intros x Hx.
    destruct (In_nth _ _ 0 Hx) as (i & Hi & <-).
    rewrite length_firstn, Hlen in Hi.
    rewrite nth_firstn.
    destruct (Nat.ltb_spec i 95); [|lia].
    apply Hlow. apply sorted_nth_le; [exact Hs | lia].
Qed.

(** C10: a row whose [nkill] is null never reaches the box plot, the
    threshold is the one of the non-null values alone, and yet the same null
    counts as nothing, not as a missing term, in a sum. *)
Theorem boxplot_drops_null_nkill (v : DataFrame) :
  Forall (fun r => exists k, nkill r = Some k) (boxplot_input v)
  /\ (forall q, le_threshold None q = false)
  /\ quantile95 (map nkill v)
     = quantile95 (map nkill (filter (fun r => notna (nkill r)) v))
  /\ (forall col, quantile95 (None :: col) = quantile95 col)
  /\ (forall col, col_sum (None :: col) = col_sum col).
Proof.
  split; [|split; [|split; [|split]]]; try reflexivity.
  - apply Forall_forall. intros r Hr. apply filter_In in Hr as [_ Hr].
    destruct (nkill r) as [k|]; [now exists k | discriminate].
  - unfold quantile95. now rewrite dropna_notna.
Qed.

(** C2, counterexample: with the death tolls 1, 2 (bombings) and 100, 200
    (assaults) the script clips at the percentile of all four values, 185, and
    keeps the bombing with 2 deaths; a clip inside each attack type would
    drop it. *)
Lemma boxplot_clip_not_per_group :
  boxplot_input clip_view
  = [clip_row "Bombing" 1; clip_row "Bombing" 2; clip_row "Assault" 100]
  /\ boxplot_input_per_group clip_view
     = [clip_row "Bombing" 1; clip_row "Assault" 100].
Proof. split; vm_compute; reflexivity. Qed.

(** C2, as the script has it: the box plot receives the rows whose [nkill]
    does not exceed the 95th percentile of [nkill] over the whole view, one
    threshold for all attack types.  On a view of a single attack type this
    is the clip inside the group, and on a view of 100 rows with distinct
    tolls exactly the five largest are left out. *)
Theorem boxplot_clip_whole_view (v : DataFrame) :
  (forall r, In r (boxplot_input v) <->
             In r v
             /\ le_threshold (nkill r) (quantile95 (map nkill v)) = true)
  /\ ((forall r r', In r v -> In r' v -> same_attack_type r r' = true) ->
      boxplot_input_per_group v = boxplot_input v)
  /\ (length v = 100%nat ->
      NoDup (map nkill v) ->
      Forall (fun r => exists k, nkill r = Some k) v ->
      length (boxplot_input v) = 95%nat
      /\ forall r r',
          In r (boxplot_input v) -> In r' v -> ~ In r' (boxplot_input v) ->
          exists k k', nkill r = Some k /\ nkill r' = Some k' /\ k < k').
Proof.
  split; [|split].
  - intros r. unfold boxplot_input. apply filter_In.
  - intros Hsame. unfold boxplot_input_per_group, boxplot_input.
    apply filter_ext_in. intros r Hr.
    rewrite (filter_all_true (same_attack_type r) v); [reflexivity|].
    apply Forall_forall. intros r' Hr'. now apply Hsame.
  - intros Hlen Hnd Hall.
    pose proof (dropna_all_some v Hall) as Hvals.
    set (vals := dropna (map nkill v)) in *.
    assert (Hlv : length vals = 100%nat).
    { rewrite <- Hlen, <- (length_map nkill v), <- Hvals. now rewrite length_map. }
    assert (Hndv : NoDup vals).
    { apply (NoDup_map_inv (@Some Z)). now rewrite Hvals. }
    pose proof (quantile95_100 (map nkill v) Hlv) as Hq. cbv zeta in Hq.
    fold vals in Hq.
    set (s := sort_by Z.leb vals) in *.
    assert (Hperm : Permutation s vals) by apply sort_by_perm.
    assert (Hls : length s = 100%nat) by (unfold s; now rewrite sort_by_length).
    assert (Hss : StronglySorted Z.le s) by apply sort_Z_sorted.
    assert (Hab : nth 94 s 0 < nth 95 s 0).
    { assert (nth 94 s 0 <= nth 95 s 0) by (apply sorted_nth_le; [exact Hss|lia]).
      assert (nth 94 s 0 <> nth 95 s 0).
      { intros E. apply NoDup_nth in E; [lia| |lia|lia].
        eapply Permutation_NoDup; [symmetry; exact Hperm | exact Hndv]. }
      lia. }
    set (a := nth 94 s 0) in *. set (b := nth 95 s 0) in *.
    set (p := fun k : Z =>
                Qle_bool (inject_Z k)
                         (inject_Z a + inject_Z 1 / 20 * inject_Z (b - a))%Q).
    assert (Hp : forall k, p k = true <-> 20 * k <= 19 * a + b).
    { intros k. unfold p. rewrite le_interpolated. lia. }
    assert (Hbox : boxplot_input v
                   = filter (fun r => match nkill r with
                                      | Some k => p k
                                      | None => false
                                      end) v).
    { unfold boxplot_input. rewrite Hq. reflexivity. }
    split.
    + rewrite Hbox, (filter_nkill_length p v Hall). fold vals.
      rewrite <- (filter_perm_length p s vals Hperm).
      apply sorted_cut_95; [exact Hls | exact Hss | |].
      * intros x Hx. apply Hp. fold a in Hx. lia.
      * intros x Hx. fold b in Hx. destruct (p x) eqn:E; [|reflexivity].
        apply Hp in E. lia.
    + intros r r' Hr Hr' Hout. rewrite Hbox in Hr, Hout.
      apply filter_In in Hr as [_ Hr].
      rewrite Forall_forall in Hall. destruct (Hall r' Hr') as [k' Hk'].
      destruct (nkill r) as [k|] eqn:Ek; [|discriminate].
      exists k, k'. split; [reflexivity|]. split; [exact Hk'|].
      apply Hp in Hr.
      assert (Hn : p k' <> true).
      { intros E. apply Hout. apply filter_In. split; [exact Hr'|].
        now rewrite Hk'. }
      rewrite Hp in Hn. lia.
Qed.

Lemma hundred_view_tolls :
  map nkill hundred_view = map (fun n => Some (Z.of_nat n)) (seq 1 100).
Proof. unfold hundred_view. now rewrite map_map. Qed.

Lemma hundred_view_distinct : NoDup (map nkill hundred_view).
Proof.
  rewrite hundred_view_tolls.
  apply Finite.Injective_map_NoDup; [|apply seq_NoDup].
  intros x y E. injection E as E. lia.
Qed.

Lemma boxplot_clip_whole_view_witness :
  length (boxplot_input hundred_view) = 95%nat
  /\ forall r r',
      In r (boxplot_input hundred_view) -> In r' hundred_view ->
      ~ In r' (boxplot_input hundred_view) ->
      exists k k', nkill r = Some k /\ nkill r' = Some k' /\ k < k'.
Proof.
  apply (proj2 (proj2 (boxplot_clip_whole_view hundred_view))).
  - reflexivity.
  - exact hundred_view_distinct.
  - apply Forall_forall. intros r Hr. unfold hundred_view in Hr.
    apply in_map_iff in Hr as (n & <- & _). now eexists.
Defined.

(** ** The store: proofs *)

Lemma filter_read_rows (p : Incident -> bool) (l : DataFrame) :
  filter (fun r => p (base r)) (map (fun r => mkRow r []) l)
  = map (fun r => mkRow r []) (filter p l).
Proof.
  induction l as [|x l IH]; simpl; [reflexivity|].
  destruct (p x); simpl; now rewrite IH.
Qed.

Lemma base_read_rows (l : DataFrame) :
  map base (map (fun r => mkRow r []) l) = l.
Proof. rewrite map_map. simpl. apply map_id. Qed.

Lemma base_set_column (name : string) (cell : Incident -> string) (f : Frame) :
  map base (rows (set_column name cell f)) = map base (rows f).
Proof. unfold set_column. simpl. rewrite map_map. reflexivity. Qed.

(** The filter block, whatever the criteria, leaves a frame that was read from
    the file and then narrowed: file columns only, no derived cell. *)
Lemma run_filters_frame (d : DataFrame) (c : FilterCriteria) :
  deref (heap (run_filters d c)) (df_filtered_ref (run_filters d c))
  = read_csv (apply_filters d c)
  /\ deref (heap (run_filters d c)) (df_ref (run_filters d c)) = read_csv d
  /\ df_ref (run_filters d c) = snd (load_data d)
  /\ (length (fst (load_data d)) <= df_filtered_ref (run_filters d c))%nat
  /\ (df_filtered_ref (run_filters d c) < length (heap (run_filters d c)))%nat.
Proof.
  unfold run_filters, apply_filters, load_data, getitem_mask, copy, alloc.
  destruct (region_set c), (country_set c), (attack_set c), (success_filter c);
    cbn [fst snd heap df_ref df_filtered_ref length app deref nth columns rows
         read_csv];
    rewrite ?filter_read_rows,
      ?(filter_read_rows (fun r => success r =? 1)),
      ?(filter_read_rows (fun r => success r =? 0));
    (split; [reflexivity|split; [reflexivity|split; [reflexivity|lia]]]).
Qed.

Lemma deref_update_same (h : Heap) (l : loc) (f : Frame) :
  (l < length h)%nat -> deref (update h l f) l = f.
Proof.
  unfold deref. revert l. induction h as [|x h IH]; intros l Hl; simpl in *.
  - lia.
  - destruct l as [|l]; simpl; [reflexivity|]. apply IH. lia.
Qed.

Lemma deref_update_other (h : Heap) (l l' : loc) (f : Frame) :
  l' <> l -> deref (update h l f) l' = deref h l'.
Proof.
  unfold deref. revert l l'. induction h as [|x h IH]; intros l l' Hne; simpl.
  - reflexivity.
  - destruct l as [|l], l' as [|l']; simpl; try reflexivity; try congruence.
    apply IH. congruence.
Qed.

Lemma set_decade_read_csv (v : DataFrame) :
  set_column "decade" decade_label (read_csv v)
  = mkFrame (csv_columns ++ ["decade"])
            (map (fun r => mkRow r [("decade", decade_label r)]) v).
Proof.
  unfold set_column, read_csv. cbn [columns rows]. f_equal.
  rewrite map_map. reflexivity.
Qed.

(** C9, counterexample: on the two-record dataset the frame bound to
    [df_filtered] has the file's columns after the filter block and one column
    more, with a cell in every row, after the decade chart: the same object,
    changed in place. *)
Lemma decade_column_written_in_place :
  df_filtered_ref (assign_decade (run_filters scenario_dataset scenario_criteria))
  = df_filtered_ref (run_filters scenario_dataset scenario_criteria)
  /\ deref (heap (run_filters scenario_dataset scenario_criteria))
           (df_filtered_ref (run_filters scenario_dataset scenario_criteria))
     = mkFrame csv_columns [mkRow scenario_row2 []]
  /\ deref (heap (assign_decade
                    (run_filters scenario_dataset scenario_criteria)))
           (df_filtered_ref (run_filters scenario_dataset scenario_criteria))
     = mkFrame (csv_columns ++ ["decade"])
               [mkRow scenario_row2 [("decade", "2000s")]].
Proof. repeat split; reflexivity. Qed.

(** C9, as the script has it: the filter block never writes the frame bound to
    [df] and binds [df_filtered] to an object that did not exist before, whose
    rows are the filtered rows.  The decade chart then assigns a "decade"
    column to that object in place: its rows keep their file cells and gain
    one cell, its column list grows by one, and every other object of the
    store, the dataset included, is left as it was. *)
Theorem dataset_untouched_view_gains_decade (d : DataFrame) (c : FilterCriteria) :
  deref (heap (run_filters d c)) (df_ref (run_filters d c)) = read_csv d
  /\ deref (heap (assign_decade (run_filters d c)))
           (df_ref (assign_decade (run_filters d c))) = read_csv d
  /\ (length (fst (load_data d)) <= df_filtered_ref (run_filters d c))%nat
  /\ deref (heap (run_filters d c)) (df_filtered_ref (run_filters d c))
     = read_csv (apply_filters d c)
  /\ frame_view (run_filters d c) = apply_filters d c
  /\ df_filtered_ref (assign_decade (run_filters d c))
     = df_filtered_ref (run_filters d c)
  /\ deref (heap (assign_decade (run_filters d c)))
           (df_filtered_ref (assign_decade (run_filters d c)))
     = mkFrame (csv_columns ++ ["decade"])
               (map (fun r => mkRow r [("decade", decade_label r)])
                    (apply_filters d c))
  /\ frame_view (assign_decade (run_filters d c)) = apply_filters d c
  /\ (forall l, l = df_filtered_ref (run_filters d c)
                \/ deref (heap (assign_decade (run_filters d c))) l
                   = deref (heap (run_filters d c)) l).
Proof.
  destruct (run_filters_frame d c) as (Hv & Hd & Hr & Hfresh & Hbound).
  assert (Hnew : deref (heap (assign_decade (run_filters d c)))
                       (df_filtered_ref (run_filters d c))
                 = mkFrame (csv_columns ++ ["decade"])
                     (map (fun r => mkRow r [("decade", decade_label r)])
                          (apply_filters d c))).
  { unfold assign_decade, setitem. cbn [heap].
    rewrite deref_update_same by exact Hbound.
    rewrite Hv. apply set_decade_read_csv. }
  split; [exact Hd|]. split.
  { unfold assign_decade, setitem. cbn [heap df_ref].
    rewrite deref_update_other; [exact Hd|].
    rewrite Hr. simpl in Hfresh |- *. lia. }
  split; [exact Hfresh|]. split; [exact Hv|]. split.
  { unfold frame_view. rewrite Hv. apply base_read_rows. }
  split; [reflexivity|]. split; [exact Hnew|]. split.
  { unfold frame_view. change (df_filtered_ref (assign_decade (run_filters d c)))
      with (df_filtered_ref (run_filters d c)).
    rewrite Hnew. cbn [rows]. rewrite map_map. simpl. apply map_id. }
  intros l. destruct (Nat.eq_dec l (df_filtered_ref (run_filters d c))) as [E|E];
    [now left | right].
  unfold assign_decade, setitem. cbn [heap].
  now apply deref_update_other.
Qed.

(** ** The geo sample: proofs *)

Lemma take_in_range {A : Type} (l : list A) (idx : list nat) :
  Forall (fun i => (i < length l)%nat) idx ->
  exists s, take l idx = Ok s
            /\ Forall2 (fun i x => nth_error l i = Some x) idx s.
Proof.
  induction 1 as [|i idx Hi _ (s & Hs & H2)]; simpl.
  - exists []. split; [reflexivity | constructor].
  - destruct (nth_error l i) as [x|] eqn:E.
    + exists (x :: s). rewrite Hs. split; [reflexivity | now constructor].
    + apply nth_error_None in E. lia.
Qed.

Lemma first_positions_contract : choice_contract first_positions.
Proof.
  intros seed pop n Hn. unfold first_positions.
  split; [apply length_seq|]. split; [apply seq_NoDup|].
  apply Forall_forall. intros i Hi. apply in_seq in Hi. lia.
Qed.

Lemma alternating_contract : generator_contract alternating.
Proof.
  intros g pop n Hn. simpl.
  destruct (Nat.even g); (split; [apply length_seq|]);
    (split; [apply seq_NoDup|]);
    apply Forall_forall; intros i Hi; apply in_seq in Hi; lia.
Qed.

(** The seeded sample does not look at the global generator. *)
Lemma map_data_st_seeded (G : Generator) (v : DataFrame) (g : rng G) :
  map_data_st G v g = (map_data (choice_of G) v, g).
Proof.
  unfold map_data_st, map_data, sample_st, sample, choice_of.
  destruct (5000 <? length (geo_rows v))%nat; [|reflexivity].
  now destruct (length (geo_rows v) <? 5000)%nat.
Qed.

(** Without a seed two runs in a row need not agree: on three rows the
    alternating generator hands out the first two, then the last two. *)
Lemma unseeded_sample_varies :
  sample_st alternating 2 None numbered_view 0%nat
  = (Ok [numbered_row 2001; numbered_row 2002], 1%nat)
  /\ sample_st alternating 2 None numbered_view 1%nat
     = (Ok [numbered_row 2002; numbered_row 2003], 2%nat)
  /\ sample_st alternating 2 (Some 42) numbered_view 0%nat
     = (Ok [numbered_row 2001; numbered_row 2002], 0%nat)
  /\ sample_st alternating 2 (Some 42) numbered_view 1%nat
     = (Ok [numbered_row 2001; numbered_row 2002], 1%nat).
Proof. repeat split; reflexivity. Qed.

(** C8: when more than 5000 rows of the view carry both coordinates, the map
    receives exactly 5000 of them, taken at 5000 distinct positions, and the
    sample is the draw of a generator fresh from seed 42: in whatever state
    earlier draws have left numpy's global generator, a run on the same view
    returns the same sample and leaves the global state as it found it, so
    two runs, one after the other or in different sessions, agree. *)
Theorem geo_sample_5000_deterministic (G : Generator) (v : DataFrame) :
  generator_contract G ->
  (5000 < length (geo_rows v))%nat ->
  exists s,
    (forall g : rng G, map_data_st G v g = (Ok s, g))
    /\ (forall g : rng G,
           map_data_st G v (snd (map_data_st G v g)) = map_data_st G v g)
    /\ take (geo_rows v)
            (fst (rng_choice G (RandomState G 42) (length (geo_rows v)) 5000))
       = Ok s
    /\ length s = 5000%nat
    /\ (exists idx, NoDup idx
                    /\ Forall2 (fun i r => nth_error (geo_rows v) i = Some r)
                               idx s)
    /\ Forall (fun r => In r v
                        /\ notna (latitude r) && notna (longitude r) = true) s.
Proof.
  intros Hc Hbig.
  destruct (Hc (RandomState G 42) (length (geo_rows v)) 5000%nat)
    as (Hlen & Hnd & Hrange); [lia|].
  destruct (take_in_range (geo_rows v) _ Hrange) as (s & Hs & H2).
  exists s.
  assert (Hmd : forall g : rng G, map_data_st G v g = (Ok s, g)).
  { intros g. unfold map_data_st, sample_st.
    destruct (Nat.ltb_spec 5000 (length (geo_rows v))); [|lia].
    destruct (Nat.ltb_spec (length (geo_rows v)) 5000); [lia|].
    now rewrite Hs. }
  split; [exact Hmd|]. split.
  { intros g. now rewrite !Hmd. }
  split; [exact Hs|]. split.
  { rewrite <- (Forall2_length H2). exact Hlen. }
  split.
  { eexists. split; [exact Hnd | exact H2]. }
  clear Hs Hmd Hlen Hnd Hrange.
  induction H2 as [|i r idx s Hi _ IH]; constructor; [|exact IH].
  apply nth_error_In in Hi. unfold geo_rows in Hi.
  now apply filter_In in Hi.
Qed.

Lemma geo_sample_5000_deterministic_witness :
  exists s,
    (forall g : rng alternating, map_data_st alternating geo_view g = (Ok s, g))
    /\ (forall g : rng alternating,
           map_data_st alternating geo_view
                       (snd (map_data_st alternating geo_view g))
           = map_data_st alternating geo_view g)
    /\ take (geo_rows geo_view)
            (fst (rng_choice alternating (RandomState alternating 42)
                             (length (geo_rows geo_view)) 5000))
       = Ok s
    /\ length s = 5000%nat
    /\ (exists idx, NoDup idx
                    /\ Forall2 (fun i r => nth_error (geo_rows geo_view) i
                                           = Some r) idx s)
    /\ Forall (fun r => In r geo_view
                        /\ notna (latitude r) && notna (longitude r) = true) s.
Proof.
  apply (geo_sample_5000_deterministic alternating geo_view).
  - exact alternating_contract.
  - apply Nat.ltb_lt. vm_compute. reflexivity.
Defined.

(** ** Country tables: proofs *)

Section UniqueFacts.
Context {A : Type} (eq_dec : forall x y : A, {x = y} + {x <> y}).

Lemma unique_In (l : list A) (x : A) : In x (unique eq_dec l) <-> In x l.
Proof.
  induction l as [|a t IH]; simpl; [reflexivity|].
  rewrite filter_In, IH. cbv beta. split.
  - intros [E|[Hin _]]; [now left | now right].
  - intros [E|Hin]; [now left|].
    destruct (eq_dec a x) as [E|E]; [now left|].
    right. split; [exact Hin|]. now destruct (eq_dec a x).
Qed.

Lemma unique_NoDup (l : list A) : NoDup (unique eq_dec l).
Proof.
  induction l as [|a t IH]; simpl; constructor.
  - rewrite filter_In. cbv beta. intros [_ H]. now destruct (eq_dec a a).
  - now apply NoDup_filter.
Qed.
End UniqueFacts.

Lemma dropna_In {A : Type} (col : list (option A)) (x : A) :
  In x (dropna col) <-> In (Some x) col.
Proof.
  induction col as [|[y|] t IH]; simpl.
  - reflexivity.
  - rewrite IH. split; intros [E|H]; auto; left; congruence.
  - rewrite IH. split; [now right | intros [E|H]; [discriminate | exact H]].
Qed.

Lemma count_occ_rows (key : Incident -> option string) (v : DataFrame)
  (k : string) :
  count_occ string_dec (dropna (map key v)) k
  = length (filter (fun r => str_eq (key r) k) v).
Proof.
  induction v as [|r v IH]; simpl; [reflexivity|].
  destruct (key r) as [x|]; simpl; [|exact IH].
  destruct (string_dec x k) as [E|E].
  - subst. rewrite String.eqb_refl. simpl. now rewrite IH.
  - apply String.eqb_neq in E. now rewrite E.
Qed.


(** Descending order splits at any cut: what comes before the cut is at least
    what comes after. *)
Lemma sorted_app_ge {A : Type} (key : A -> Z) (l1 l2 : list A) :
  StronglySorted (fun a b => (key b <=? key a) = true) (l1 ++ l2) ->
  Forall (fun x => Forall (fun y => key y <= key x) l2) l1.
Proof.
  induction l1 as [|a l1 IH]; simpl; intros H; [constructor|].
  inversion H as [|? ? Hs Ha]; subst. constructor; [|now apply IH].
  apply Forall_app in Ha as [_ Ha].
  eapply Forall_impl; [|exact Ha]. simpl. intros; lia.
Qed.

Lemma nlargest_spec {A : Type} (n : nat) (key : A -> Z) (l : list A) :
  length (nlargest n key l) = Nat.min n (length l)
  /\ incl (nlargest n key l) l
  /\ Forall (fun x =>
               Forall (fun y => In y (nlargest n key l) \/ key y <= key x) l)
            (nlargest n key l).
Proof.
  unfold nlargest.
  set (s := sort_by (fun a b => key b <=? key a) l).
  assert (Hperm : Permutation s l) by apply sort_by_perm.
  assert (Hs : StronglySorted (fun a b => (key b <=? key a) = true) s).
  { apply sort_by_sorted; intros; lia. }
  split; [|split].
  - rewrite length_firstn. now rewrite (Permutation_length Hperm).
  - intros x Hx. apply (Permutation_in _ Hperm).
    rewrite <- (firstn_skipn n s). apply in_or_app. now left.
  - rewrite <- (firstn_skipn n s) in Hs. apply sorted_app_ge in Hs.
    eapply Forall_impl; [|exact Hs]. simpl. intros x Hx.
    apply Forall_forall. intros y Hy.
    apply (Permutation_in _ (Permutation_sym Hperm)) in Hy.
    rewrite <- (firstn_skipn n s) in Hy. apply in_app_or in Hy as [Hy|Hy];
      [now left | right].
    rewrite Forall_forall in Hx. now apply Hx.
Qed.




(** ** Sidebar options: proofs *)

Lemma string_leb_trans (s1 s2 s3 : string) :
  String.leb s1 s2 = true -> String.leb s2 s3 = true ->
  String.leb s1 s3 = true.
Proof.
  unfold String.leb. revert s2 s3.
  induction s1 as [|a s1 IH]; intros [|b s2] [|c s3]; simpl; try easy.
  unfold Ascii.compare.
  destruct (N.compare_spec (N_of_ascii a) (N_of_ascii b)) as [E1|L1|G1];
    destruct (N.compare_spec (N_of_ascii b) (N_of_ascii c)) as [E2|L2|G2];
    destruct (N.compare_spec (N_of_ascii a) (N_of_ascii c)) as [E3|L3|G3];
    try easy; try lia.
  apply IH.
Qed.

Lemma sorted_unique_spec (col : list (option string)) :
  NoDup (sorted_unique col)
  /\ StronglySorted (fun a b => String.leb a b = true) (sorted_unique col)
  /\ (forall k, In k (sorted_unique col) <-> In (Some k) col).
Proof.
  unfold sorted_unique. split; [|split].
  - eapply Permutation_NoDup; [symmetry; apply sort_by_perm|].
    apply unique_NoDup.
  - apply sort_by_sorted; [apply String.leb_total | apply string_leb_trans].
  - intros k. rewrite sort_by_In, unique_In. apply dropna_In.
Qed.

Lemma country_options_tail (df : DataFrame) (sel : string) (k : string) :
  In k (tl (country_options df sel))
  <-> exists r, In r df /\ country r = Some k /\ in_selected_region sel r.
Proof.
  unfold country_options, in_selected_region.
  destruct (String.eqb_spec sel "All Regions") as [E|E]; simpl.
  - destruct (sorted_unique_spec (map country df)) as (_ & _ & H).
    rewrite H, in_map_iff. split.
    + intros (r & Hc & Hr). exists r. auto.
    + intros (r & Hr & Hc & _). exists r. auto.
  - destruct (sorted_unique_spec
                (map country (filter (fun r => str_eq (region r) sel) df)))
      as (_ & _ & H).
    rewrite H, in_map_iff. split.
    + intros (r & Hc & Hr). apply filter_In in Hr as [Hr Hreg].
      apply str_eq_true in Hreg. exists r. auto.
    + intros (r & Hr & Hc & [Hs|Hreg]); [contradiction|].
      exists r. split; [exact Hc|]. apply filter_In. split; [exact Hr|].
      now apply str_eq_true.
Qed.

(** X1: the country select box opens with "All Countries" and then lists,
    without repetition and in ascending order, exactly the countries of the
    dataset rows of the selected region (of all rows when no region is
    selected). *)
Theorem country_options_follow_region (df : DataFrame) (sel : string) :
  exists opts,
    country_options df sel = "All Countries" :: opts
    /\ NoDup opts
    /\ StronglySorted (fun a b => String.leb a b = true) opts
    /\ (forall k, In k opts
                  <-> exists r, In r df /\ country r = Some k
                                /\ in_selected_region sel r).
Proof.
  exists (tl (country_options df sel)).
  split; [|split; [|split]].
  - unfold country_options. now destruct (negb (String.eqb sel "All Regions")).
  - unfold country_options.
    destruct (negb (String.eqb sel "All Regions")); simpl;
      apply sorted_unique_spec.
  - unfold country_options.
    destruct (negb (String.eqb sel "All Regions")); simpl;
      apply sorted_unique_spec.
  - apply country_options_tail.
Qed.

Lemma satisfies_intro (c : FilterCriteria) (r : Incident) :
  fst (year_range c) <= year r <= snd (year_range c) ->
  in_selected_region (selected_region c) r ->
  (selected_country c = "All Countries"
   \/ country r = Some (selected_country c)) ->
  (selected_attack c = "All Types"
   \/ attack_type r = Some (selected_attack c)) ->
  outcome_mask c r = true ->
  satisfies c r = true.
Proof.
  intros Hy Hr Hc Ha Ho. unfold satisfies. rewrite Ho, andb_true_r.
  assert (Hyear : year_mask c r = true).
  { unfold year_mask. apply andb_true_iff. split; lia. }
  assert (Hreg : (if region_set c then region_mask c r else true) = true).
  { unfold region_set, region_mask.
    destruct (String.eqb_spec (selected_region c) "All Regions"); simpl;
      [reflexivity|].
    destruct Hr as [Hr|Hr]; [contradiction | now apply str_eq_true]. }
  assert (Hcou : (if country_set c then country_mask c r else true) = true).
  { unfold country_set, country_mask.
    destruct (String.eqb_spec (selected_country c) "All Countries"); simpl;
      [reflexivity|].
    destruct Hc as [Hc|Hc]; [contradiction | now apply str_eq_true]. }
  assert (Hatt : (if attack_set c then attack_mask c r else true) = true).
  { unfold attack_set, attack_mask.
    destruct (String.eqb_spec (selected_attack c) "All Types"); simpl;
      [reflexivity|].
    destruct Ha as [Ha|Ha]; [contradiction | now apply str_eq_true]. }
  now rewrite Hyear, Hreg, Hcou, Hatt.
Qed.

(** X2: a country offered by the select box for the selected region has at
    least one record: with the slider on its end stops, that region and that
    country selected and nothing else, the view contains a row of the
    country. *)
Theorem offered_country_has_records
  (df : DataFrame) (sel k : string) (lo hi : Z) :
  slider_bounds df = Ok (lo, hi) ->
  In k (tl (country_options df sel)) ->
  exists r,
    In r (apply_filters df (mkCriteria (lo, hi) sel k "All Types" All))
    /\ country r = Some k.
Proof.
  intros Hb Hk. apply country_options_tail in Hk as (r & Hr & Hc & Hreg).
  destruct (slider_bounds_spec df lo hi Hb) as (_ & _ & Hall).
  rewrite Forall_forall in Hall.
  exists r. split; [|exact Hc].
  rewrite apply_filters_satisfies. apply filter_In. split; [exact Hr|].
  apply satisfies_intro; simpl; auto.
Qed.

Lemma offered_country_has_records_witness :
  exists r,
    In r (apply_filters scenario_dataset
            (mkCriteria (1999, 2001) "A" "X" "All Types" All))
    /\ country r = Some "X".
Proof.
  apply (offered_country_has_records scenario_dataset "A" "X" 1999 2001).
  - reflexivity.
  - simpl. now left.
Defined.

Lemma view_row_spec (df : DataFrame) (c : FilterCriteria) (r : Incident) :
  In r (apply_filters df c) ->
  In r df
  /\ fst (year_range c) <= year r <= snd (year_range c)
  /\ in_selected_region (selected_region c) r
  /\ (selected_country c = "All Countries"
      \/ country r = Some (selected_country c))
  /\ (selected_attack c = "All Types"
      \/ attack_type r = Some (selected_attack c))
  /\ outcome_mask c r = true.
Proof.
  rewrite apply_filters_satisfies. intros Hr.
  apply filter_In in Hr as [Hin Hs]. split; [exact Hin|].
  unfold satisfies in Hs.
  apply andb_true_iff in Hs as [Hs Ho].
  apply andb_true_iff in Hs as [Hs Ha].
  apply andb_true_iff in Hs as [Hs Hc].
  apply andb_true_iff in Hs as [Hy Hg].
  unfold year_mask in Hy. apply andb_true_iff in Hy as [Hlo Hhi].
  split; [lia|]. split; [|split; [|split; [|exact Ho]]].
  - unfold in_selected_region, region_set, region_mask in *.
    destruct (String.eqb_spec (selected_region c) "All Regions");
      simpl in *; [now left | right; now apply str_eq_true].
  - unfold country_set, country_mask in *.
    destruct (String.eqb_spec (selected_country c) "All Countries");
      simpl in *; [now left | right; now apply str_eq_true].
  - unfold attack_set, attack_mask in *.
    destruct (String.eqb_spec (selected_attack c) "All Types");
      simpl in *; [now left | right; now apply str_eq_true].
Qed.

(** ** Filter block: further properties *)

(** X4: with the slider on its end stops and nothing selected the filter block
    returns the whole dataset, row for row. *)
Theorem full_range_returns_dataset (df : DataFrame) (lo hi : Z) :
  slider_bounds df = Ok (lo, hi) ->
  apply_filters df (default_criteria (lo, hi)) = df.
Proof.
  intros Hb. destruct (slider_bounds_spec df lo hi Hb) as (_ & _ & Hall).
  rewrite apply_filters_satisfies. apply filter_all_true.
  eapply Forall_impl; [|exact Hall]. intros r Hr.
  apply satisfies_intro; simpl; auto. now left.
Qed.

Lemma full_range_returns_dataset_witness :
  apply_filters scenario_dataset (default_criteria (1999, 2001))
  = scenario_dataset.
Proof.
  apply (full_range_returns_dataset scenario_dataset 1999 2001). reflexivity.
Defined.

Lemma outcome_view (df : DataFrame) (c : FilterCriteria) (o : Outcome) :
  apply_filters df (with_outcome c o)
  = filter (outcome_mask (with_outcome c o))
           (apply_filters df (with_outcome c All)).
Proof.
  rewrite !apply_filters_satisfies, filter_filter. apply filter_ext.
  intros r. unfold satisfies, outcome_mask. simpl. now rewrite andb_true_r.
Qed.

Lemma three_way_split {A : Type} (p q : A -> bool) (l : list A) :
  (forall x, p x = true -> q x = false) ->
  (length (filter p l) + length (filter q l)
   + length (filter (fun x => negb (p x) && negb (q x)) l))%nat
  = length l.
Proof.
  intros Hpq. induction l as [|x l IH]; simpl; [reflexivity|].
  destruct (p x) eqn:Ep.
  - rewrite (Hpq x Ep). simpl. lia.
  - destruct (q x); simpl; lia.
Qed.

(** X5: the "Successful" and the "Failed" view are parts of the "All" view of
    the same criteria that share no row; what they leave out are the rows
    whose [success] cell is neither 1 nor 0. *)
Theorem outcome_views_split_all_view (df : DataFrame) (c : FilterCriteria) :
  (length (apply_filters df (with_outcome c Successful))
   + length (apply_filters df (with_outcome c Failed))
   + length (filter (fun r => negb (success r =? 1)%Z
                              && negb (success r =? 0)%Z)
                    (apply_filters df (with_outcome c All))))%nat
  = length (apply_filters df (with_outcome c All))
  /\ incl (apply_filters df (with_outcome c Successful))
          (apply_filters df (with_outcome c All))
  /\ incl (apply_filters df (with_outcome c Failed))
          (apply_filters df (with_outcome c All))
  /\ Forall (fun r => success r = 1)
            (apply_filters df (with_outcome c Successful))
  /\ Forall (fun r => success r = 0)
            (apply_filters df (with_outcome c Failed)).
Proof.
  rewrite (outcome_view df c Successful), (outcome_view df c Failed).
  unfold outcome_mask. simpl.
  split; [|split; [|split; [|split]]].
  - apply three_way_split. intros r H. lia.
  - intros r Hr. now apply filter_In in Hr.
  - intros r Hr. now apply filter_In in Hr.
  - apply Forall_forall. intros r Hr. apply filter_In in Hr as [_ Hr]. lia.
  - apply Forall_forall. intros r Hr. apply filter_In in Hr as [_ Hr]. lia.
Qed.

(** ** Group-by: proofs *)

Lemma Zsum_zero {A : Type} (l : list A) : Zsum (map (fun _ => 0) l) = 0.
Proof. induction l; simpl; lia. Qed.

Lemma Zsum_plus {A : Type} (f g : A -> Z) (l : list A) :
  Zsum (map (fun x => f x + g x) l) = Zsum (map f l) + Zsum (map g l).
Proof. induction l; simpl; lia. Qed.

Lemma Zsum_ext_in {A : Type} (f g : A -> Z) (l : list A) :
  (forall x, In x l -> f x = g x) -> Zsum (map f l) = Zsum (map g l).
Proof. intros H. f_equal. now apply map_ext_in. Qed.

Lemma Zsum_indicator {A : Type} (p : A -> bool) (w : Z) (l : list A) :
  Zsum (map (fun x => if p x then w else 0) l)
  = w * Z.of_nat (length (filter p l)).
Proof.
  induction l as [|x l IH]; simpl; [lia|].
  destruct (p x); simpl length; lia.
Qed.

(** Group sums, row by row: every row is counted once for each group that
    selects it. *)
Lemma group_sums {K : Type} (sel : K -> Incident -> bool)
  (w : Incident -> Z) (ks : list K) (v : DataFrame) :
  Zsum (map (fun k => Zsum (map w (filter (sel k) v))) ks)
  = Zsum (map (fun r => w r
                        * Z.of_nat (length (filter (fun k => sel k r) ks)))
              v).
Proof.
  induction v as [|r t IH]; simpl.
  - apply Zsum_zero.
  - rewrite <- IH, <- Zsum_indicator, <- Zsum_plus.
    apply Zsum_ext_in. intros k _. now destruct (sel k r).
Qed.

Lemma filter_eqb_NoDup_Z (ks : list Z) (x : Z) :
  NoDup ks -> In x ks -> length (filter (fun k => x =? k) ks) = 1%nat.
Proof.
  induction 1 as [|k ks Hk Hnd IH]; simpl; [easy|].
  intros [->|Hin].
  - rewrite Z.eqb_refl. simpl. f_equal.
    rewrite filter_all_false; [reflexivity|].
    apply Forall_forall. intros y Hy. apply Z.eqb_neq. congruence.
  - destruct (Z.eqb_spec x k) as [->|_]; [contradiction | now apply IH].
Qed.

Lemma filter_eqb_NoDup_str (ks : list string) (x : string) :
  NoDup ks -> In x ks ->
  length (filter (fun k => String.eqb x k) ks) = 1%nat.
Proof.
  induction 1 as [|k ks Hk Hnd IH]; simpl; [easy|].
  intros [->|Hin].
  - rewrite String.eqb_refl. simpl. f_equal.
    rewrite filter_all_false; [reflexivity|].
    apply Forall_forall. intros y Hy. apply String.eqb_neq. congruence.
  - destruct (String.eqb_spec x k) as [->|_]; [contradiction | now apply IH].
Qed.

Lemma groupby_Z_keys (key : Incident -> Z) (v : DataFrame) :
  map fst (groupby_Z key v) = sort_by Z.leb (unique Z.eq_dec (map key v)).
Proof. unfold groupby_Z. rewrite map_map. simpl. apply map_id. Qed.

Lemma groupby_Z_keys_spec (key : Incident -> Z) (v : DataFrame) :
  NoDup (map fst (groupby_Z key v))
  /\ StronglySorted Z.le (map fst (groupby_Z key v))
  /\ (forall k, In k (map fst (groupby_Z key v)) <-> In k (map key v)).
Proof.
  rewrite groupby_Z_keys. split; [|split].
  - eapply Permutation_NoDup; [symmetry; apply sort_by_perm|].
    apply unique_NoDup.
  - apply sort_Z_sorted.
  - intros k. now rewrite sort_by_In, unique_In.
Qed.

(** A measure that adds up over rows adds up over the groups of an integer
    key. *)
Lemma groupby_Z_sum (key w : Incident -> Z) (v : DataFrame) :
  Zsum (map (fun g => Zsum (map w (snd g))) (groupby_Z key v))
  = Zsum (map w v).
Proof.
  unfold groupby_Z. rewrite map_map. simpl.
  rewrite (group_sums (fun k r => key r =? k)).
  apply Zsum_ext_in. intros r Hr.
  rewrite filter_eqb_NoDup_Z; [lia| |].
  - eapply Permutation_NoDup; [symmetry; apply sort_by_perm|].
    apply unique_NoDup.
  - rewrite sort_by_In, unique_In. now apply in_map.
Qed.

(** The same over a nullable string key: rows without a key are in no
    group. *)
Lemma groupby_str_sum (key : Incident -> option string) (w : Incident -> Z)
  (v : DataFrame) :
  Zsum (map (fun g => Zsum (map w (snd g))) (groupby_str key v))
  = Zsum (map (fun r => if notna (key r) then w r else 0) v).
Proof.
  unfold groupby_str. rewrite map_map. simpl.
  rewrite (group_sums (fun k r => str_eq (key r) k)).
  apply Zsum_ext_in. intros r Hr.
  destruct (key r) as [x|] eqn:E; simpl.
  - rewrite filter_eqb_NoDup_str; [lia| |].
    + eapply Permutation_NoDup; [symmetry; apply sort_by_perm|].
      apply unique_NoDup.
    + rewrite sort_by_In, unique_In, dropna_In, <- E. now apply in_map.
  - rewrite filter_all_false; [simpl; lia|].
    apply Forall_forall. reflexivity.
Qed.

Lemma col_sum_rows (f : Incident -> option Z) (l : DataFrame) :
  col_sum (map f l) = Zsum (map (fun r => fillna 0 (f r)) l).
Proof.
  unfold col_sum. induction l as [|r l IH]; simpl; [reflexivity|].
  destruct (f r); simpl; fold Zsum in *; unfold Zsum in *; lia.
Qed.

Lemma col_count_rows {A : Type} (f : Incident -> option A) (l : DataFrame) :
  col_count (map f l) = Zsum (map (fun r => if notna (f r) then 1 else 0) l).
Proof.
  unfold col_count. induction l as [|r l IH]; simpl; [reflexivity|].
  destruct (f r); simpl notna; cbv iota; simpl length; unfold Zsum in *;
    simpl fold_right; lia.
Qed.

Lemma length_rows (l : DataFrame) :
  Z.of_nat (length l) = Zsum (map (fun _ => 1) l).
Proof.
  induction l as [|r l IH]; [reflexivity|].
  cbn [length map]. rewrite Nat2Z.inj_succ, IH. unfold Zsum.
  cbn [fold_right]. lia.
Qed.

Lemma sorted_le_NoDup_lt (l : list Z) :
  StronglySorted Z.le l -> NoDup l -> StronglySorted Z.lt l.
Proof.
  induction 1 as [|x l Hs IH Hx]; intros Hnd; constructor.
  - apply IH. now inversion Hnd.
  - inversion Hnd as [|? ? Hnx _]; subst.
    rewrite Forall_forall in *. intros y Hy.
    assert (x <> y) by congruence. specialize (Hx y Hy). lia.
Qed.

(** ** Yearly trend and regional totals: proofs *)

Lemma yearly_years (v : DataFrame) :
  map y_year (yearly v) = map fst (groupby_Z year v).
Proof. unfold yearly. rewrite map_map. reflexivity. Qed.

(** X6: the yearly trend of a filtered view has one row per year that occurs
    in the view, in strictly ascending order, and every one of its years lies
    inside the selected range. *)
Theorem yearly_rows_ascending_in_range (df : DataFrame) (c : FilterCriteria) :
  StronglySorted Z.lt (map y_year (yearly (apply_filters df c)))
  /\ (forall y, In y (map y_year (yearly (apply_filters df c)))
                <-> In y (map year (apply_filters df c)))
  /\ Forall (fun row =>
               fst (year_range c) <= y_year row <= snd (year_range c))
            (yearly (apply_filters df c)).
Proof.
  destruct (groupby_Z_keys_spec year (apply_filters df c)) as (Hnd & Hs & Hin).
  rewrite yearly_years. split; [|split].
  - now apply sorted_le_NoDup_lt.
  - exact Hin.
  - apply Forall_forall. intros row Hrow.
    assert (Hy : In (y_year row) (map year (apply_filters df c))).
    { apply Hin. rewrite <- yearly_years. now apply in_map. }
    apply in_map_iff in Hy as (r & Hr & Hv). rewrite <- Hr.
    now apply view_row_spec in Hv.
Qed.

Lemma Zsum_null_split {A : Type} (f : Incident -> option A)
  (w : Incident -> Z) (v : DataFrame) :
  Zsum (map (fun r => if notna (f r) then w r else 0) v)
  + Zsum (map w (filter (fun r => negb (notna (f r))) v))
  = Zsum (map w v).
Proof.
  induction v as [|r v IH]; simpl; [reflexivity|].
  destruct (notna (f r)); simpl; unfold Zsum in *; cbn [fold_right]; lia.
Qed.

(** X7: the yearly trend adds up to the key metrics: its [killed] column to
    "Total Killed", its [wounded] column to "Total Wounded", and its [attacks]
    column, a count of country cells, to "Total Attacks" less the rows
    without a country. *)
Theorem yearly_totals_match_metrics (v : DataFrame) :
  Zsum (map killed (yearly v)) = total_killed (kpi_metrics v)
  /\ Zsum (map wounded (yearly v)) = total_wounded (kpi_metrics v)
  /\ Zsum (map killed (yearly v)) + Zsum (map wounded (yearly v))
     = total_casualties (kpi_metrics v)
  /\ Zsum (map attacks (yearly v))
     + Z.of_nat (length (filter (fun r => negb (notna (country r))) v))
     = total_attacks (kpi_metrics v).
Proof.
  assert (Hk : Zsum (map killed (yearly v)) = col_sum (map nkill v)).
  { unfold yearly. rewrite map_map. simpl.
    rewrite (col_sum_rows nkill v), <- (groupby_Z_sum year).
    apply Zsum_ext_in. intros g _. apply col_sum_rows. }
  assert (Hw : Zsum (map wounded (yearly v)) = col_sum (map nwound v)).
  { unfold yearly. rewrite map_map. simpl.
    rewrite (col_sum_rows nwound v), <- (groupby_Z_sum year).
    apply Zsum_ext_in. intros g _. apply col_sum_rows. }
  split; [exact Hk|]. split; [exact Hw|]. split.
  { rewrite Hk, Hw. reflexivity. }
  assert (Ha : Zsum (map attacks (yearly v)) = col_count (map country v)).
  { unfold yearly. rewrite map_map. simpl.
    rewrite (col_count_rows country v), <- (groupby_Z_sum year).
    apply Zsum_ext_in. intros g _. apply col_count_rows. }
  rewrite Ha. simpl total_attacks.
  rewrite col_count_rows, length_rows, length_rows.
  apply (Zsum_null_split country (fun _ => 1)).
Qed.

(** X8: the regional table has one row per region that occurs, in ascending
    order of the name; its [attacks] column adds up to the number of rows of
    the view less the rows without a region, and its [killed] column to the
    death toll of the rows that have a region. *)
Theorem region_stats_totals (v : DataFrame) :
  NoDup (map r_region (region_stats v))
  /\ StronglySorted (fun a b => String.leb a b = true)
                    (map r_region (region_stats v))
  /\ (forall k, In k (map r_region (region_stats v))
                <-> In (Some k) (map region v))
  /\ Zsum (map r_attacks (region_stats v))
     + Z.of_nat (length (filter (fun r => negb (notna (region r))) v))
     = total_attacks (kpi_metrics v)
  /\ Zsum (map r_killed (region_stats v))
     + col_sum (map nkill (filter (fun r => negb (notna (region r))) v))
     = total_killed (kpi_metrics v).
Proof.
  assert (Hkeys : map r_region (region_stats v)
                  = sorted_unique (map region v)).
  { unfold region_stats, groupby_str, sorted_unique.
    rewrite !map_map. simpl. apply map_id. }
  destruct (sorted_unique_spec (map region v)) as (Hnd & Hs & Hin).
  rewrite Hkeys. split; [exact Hnd|]. split; [exact Hs|].
  split; [exact Hin|]. split.
  - unfold region_stats. rewrite map_map. simpl total_attacks. simpl.
    rewrite (Zsum_ext_in _ (fun g => Zsum (map (fun _ => 1) (snd g))))
      by (intros g _; apply length_rows).
    rewrite groupby_str_sum, !length_rows.
    apply (Zsum_null_split region (fun _ => 1)).
  - unfold region_stats. rewrite map_map. simpl total_killed. simpl.
    rewrite (Zsum_ext_in _ (fun g => Zsum (map (fun r => fillna 0 (nkill r))
                                               (snd g))))
      by (intros g _; apply col_sum_rows).
    rewrite groupby_str_sum, !col_sum_rows.
    apply (Zsum_null_split region (fun r => fillna 0 (nkill r))).
Qed.


(** ** Summary statistics: proofs *)

Lemma idxmax_spec (l : list Z) :
  l <> [] ->
  exists i, idxmax l = Ok i
            /\ (i < length l)%nat
            /\ Forall (fun x => x <= nth i l 0) l
            /\ (forall j, (j < i)%nat -> nth j l 0 < nth i l 0).
Proof.
  induction l as [|x t IH]; [congruence|]. intros _.
  destruct t as [|y t'].
  - exists O. simpl. repeat split; [lia | | intros; lia].
    constructor; [lia | constructor].
  - destruct IH as (i & Hi & Hlt & Hmax & Hfirst); [discriminate|].
    change (idxmax (x :: y :: t'))
      with (match idxmax (y :: t') with
            | Raise _ => Ok O
            | Ok i => if nth i (y :: t') x <=? x then Ok O else Ok (S i)
            end).
    rewrite Hi. rewrite (nth_indep (y :: t') x 0 Hlt).
    destruct (Z.leb_spec (nth i (y :: t') 0) x) as [Hle|Hgt].
    + exists O. repeat split; [simpl; lia | | intros; lia].
      constructor; [simpl; lia|].
      eapply Forall_impl; [|exact Hmax].
      intros a Ha. change (a <= x). cbv beta in Ha. lia.
    + exists (S i). repeat split; [simpl in *; lia | |].
      * constructor; [change (x <= nth i (y :: t') 0); lia|]. exact Hmax.
      * intros [|j] Hj; [change (x < nth i (y :: t') 0); lia|].
        change (nth j (y :: t') 0 < nth i (y :: t') 0). apply Hfirst. lia.
Qed.

Lemma peak_year_spec (v : DataFrame) :
  v <> [] ->
  exists row,
    peak_year v = Ok (y_year row)
    /\ In row (yearly v)
    /\ In (y_year row) (map year v)
    /\ Forall (fun row' =>
                 attacks row' <= attacks row
                 /\ (attacks row' < attacks row \/ y_year row <= y_year row'))
              (yearly v).
Proof.
  intros Hv.
  destruct (groupby_Z_keys_spec year v) as (Hnd & Hs & Hin).
  rewrite <- yearly_years in Hnd, Hs, Hin.
  assert (Hne : map attacks (yearly v) <> []).
  { destruct v as [|r v]; [congruence|].
    assert (H : In (year r) (map y_year (yearly (r :: v))))
      by (apply Hin; now left).
    destruct (yearly (r :: v)); [destruct H | discriminate]. }
  destruct (idxmax_spec _ Hne) as (i & Hi & Hlt & Hmax & Hfirst).
  rewrite length_map in Hlt.
  destruct (nth_error (yearly v) i) as [row|] eqn:Erow;
    [|apply nth_error_None in Erow; lia].
  exists row.
  assert (Hnth : forall d, nth i (yearly v) d = row)
    by (intros d; now apply nth_error_nth).
  assert (Hatt : nth i (map attacks (yearly v)) 0 = attacks row).
  { rewrite (nth_indep _ 0 (attacks row)) by (rewrite length_map; lia).
    now rewrite map_nth, Hnth. }
  split; [unfold peak_year; rewrite Hi; simpl; now rewrite Erow|].
  split; [eapply nth_error_In; exact Erow|].
  split; [apply Hin, in_map; eapply nth_error_In; exact Erow|].
  apply Forall_forall. intros row' Hrow'.
  rewrite Forall_forall in Hmax. split.
  - rewrite <- Hatt. apply Hmax. now apply in_map.
  - destruct (In_nth _ _ row Hrow') as (j & Hj & Hjrow).
    destruct (Nat.lt_ge_cases j i) as [Hji|Hij].
    + left. specialize (Hfirst j Hji). rewrite Hatt in Hfirst.
      rewrite (nth_indep _ 0 (attacks row)) in Hfirst
        by (rewrite length_map; lia).
      now rewrite map_nth, Hjrow in Hfirst.
    + right.
      pose proof (sorted_nth_le _ (y_year row) Hs i j) as Hle.
      rewrite length_map in Hle. specialize (Hle (conj Hij Hj)).
      now rewrite !map_nth, Hnth, Hjrow in Hle.
Qed.

(** X9: on a view that is not empty the peak year is found: it is a year of
    the view whose yearly attack count no other year exceeds, and the earliest
    such year when several tie. *)
Theorem peak_year_of_nonempty_view (v : DataFrame) :
  v <> [] ->
  exists row,
    peak_year v = Ok (y_year row)
    /\ In row (yearly v)
    /\ In (y_year row) (map year v)
    /\ Forall (fun row' =>
                 attacks row' <= attacks row
                 /\ (attacks row' < attacks row \/ y_year row <= y_year row'))
              (yearly v).
Proof. exact (peak_year_spec v). Qed.

Lemma peak_year_of_nonempty_view_witness :
  exists row,
    peak_year scenario_dataset = Ok (y_year row)
    /\ In row (yearly scenario_dataset)
    /\ In (y_year row) (map year scenario_dataset)
    /\ Forall (fun row' =>
                 attacks row' <= attacks row
                 /\ (attacks row' < attacks row \/ y_year row <= y_year row'))
              (yearly scenario_dataset).
Proof.
  apply (peak_year_of_nonempty_view scenario_dataset). discriminate.
Defined.

Lemma max_attained (l : list nat) :
  l <> [] -> In (fold_right Nat.max O l) l.
Proof.
  induction l as [|x t IH]; [congruence|]. intros _. simpl.
  destruct t as [|y t'].
  - simpl. left. lia.
  - destruct (Nat.max_spec x (fold_right Nat.max O (y :: t')))
      as [[_ E]|[_ E]]; rewrite E.
    + right. apply IH. discriminate.
    + now left.
Qed.

Lemma max_ge (l : list nat) (x : nat) :
  In x l -> (x <= fold_right Nat.max O l)%nat.
Proof.
  induction l as [|y t IH]; simpl; [easy|].
  intros [->|H]; [lia|]. specialize (IH H). lia.
Qed.

Lemma has_value_dropna {A : Type} (col : list (option A)) :
  has_value col = false <-> dropna col = [].
Proof.
  unfold has_value. induction col as [|[x|] t IH]; simpl.
  - tauto.
  - split; discriminate.
  - exact IH.
Qed.

Lemma mode_In (col : list (option string)) (k : string) :
  In k (mode col)
  <-> In (Some k) col
      /\ forall k', (count_occ string_dec (dropna col) k'
                     <= count_occ string_dec (dropna col) k)%nat.
Proof.
  unfold mode. set (vals := dropna col).
  set (cnt := count_occ string_dec vals).
  set (top := fold_right Nat.max O (map cnt (unique string_dec vals))).
  rewrite sort_by_In, filter_In, unique_In, Nat.eqb_eq.
  unfold vals at 1. rewrite dropna_In. split.
  - intros [Hin Htop]. split; [exact Hin|]. intros k'.
    fold vals. fold (cnt k') (cnt k). rewrite Htop.
    destruct (in_dec string_dec k' vals) as [Hk'|Hk'].
    + apply max_ge. apply in_map. now apply unique_In.
    + unfold cnt. rewrite (proj1 (count_occ_not_In string_dec vals k') Hk').
      lia.
  - intros [Hin Hmax]. split; [exact Hin|].
    assert (Hk : In k (unique string_dec vals))
      by (apply unique_In; now apply dropna_In).
    assert (Hle : (cnt k <= top)%nat) by (apply max_ge; now apply in_map).
    assert (Hne : map cnt (unique string_dec vals) <> [])
      by (destruct (unique string_dec vals); [destruct Hk | discriminate]).
    apply max_attained in Hne. fold top in Hne.
    apply in_map_iff in Hne as (k0 & E & _).
    specialize (Hmax k0). fold vals in Hmax. fold (cnt k0) (cnt k) in Hmax.
    lia.
Qed.

Lemma mode_sorted (col : list (option string)) :
  StronglySorted (fun a b => String.leb a b = true) (mode col).
Proof.
  unfold mode. apply sort_by_sorted;
    [apply String.leb_total | apply string_leb_trans].
Qed.

Lemma iloc0_mode (col : list (option string)) :
  if has_value col
  then exists k, iloc0 (mode col) = Ok k
  else iloc0 (mode col) = Raise IndexError.
Proof.
  destruct (has_value col) eqn:E.
  - destruct (mode col) as [|k m] eqn:Em; [|now exists k].
    exfalso.
    assert (Hne : dropna col <> []).
    { intros H. apply has_value_dropna in H. congruence. }
    set (vals := dropna col) in *.
    assert (Hk : map (count_occ string_dec vals) (unique string_dec vals)
                 <> []).
    { destruct vals as [|x t]; [congruence|]. discriminate. }
    apply max_attained in Hk. apply in_map_iff in Hk as (k0 & Ek & Hk0).
    assert (Hin : In k0 (mode col)).
    { unfold mode. fold vals. rewrite sort_by_In, filter_In.
      split; [exact Hk0|]. now apply Nat.eqb_eq. }
    rewrite Em in Hin. destruct Hin.
  - apply has_value_dropna in E. unfold mode. now rewrite E.
Qed.

(** X10: the category a [mode().iloc[0]] prints is a value of the column that
    no other value outnumbers, and among equally frequent values the first in
    string order, wherever it stands in the frame. *)
Theorem mode_picks_smallest_most_frequent
  (col : list (option string)) (k : string) :
  iloc0 (mode col) = Ok k ->
  In (Some k) col
  /\ (forall k', (count_occ string_dec (dropna col) k'
                  <= count_occ string_dec (dropna col) k)%nat)
  /\ (forall k', count_occ string_dec (dropna col) k'
                 = count_occ string_dec (dropna col) k ->
                 String.leb k k' = true).
Proof.
  intros Hk. pose proof (mode_sorted col) as Hs.
  destruct (mode col) as [|k0 m] eqn:Em; [discriminate|].
  injection Hk as ->.
  assert (Hin : In k (mode col)) by (rewrite Em; now left).
  apply mode_In in Hin as [Hin Hmax].
  split; [exact Hin|]. split; [exact Hmax|].
  intros k' Hcnt.
  assert (Hk' : In k' (mode col)).
  { apply mode_In. split.
    - apply dropna_In. apply (count_occ_In string_dec). rewrite Hcnt.
      apply (count_occ_In string_dec). now apply dropna_In.
    - intros k''. rewrite Hcnt. apply Hmax. }
  rewrite Em in Hk'. destruct Hk' as [->|Hk'].
  - destruct (String.leb_total k' k'); assumption.
  - inversion Hs as [|? ? _ Hall]; subst.
    rewrite Forall_forall in Hall. now apply Hall.
Qed.

Lemma mode_picks_smallest_most_frequent_witness :
  In (Some "a") [Some "b"; Some "a"; None]
  /\ (forall k', (count_occ string_dec (dropna [Some "b"; Some "a"; None]) k'
                  <= count_occ string_dec
                       (dropna [Some "b"; Some "a"; None]) "a")%nat)
  /\ (forall k', count_occ string_dec (dropna [Some "b"; Some "a"; None]) k'
                 = count_occ string_dec (dropna [Some "b"; Some "a"; None]) "a"
                 -> String.leb "a" k' = true).
Proof.
  apply (mode_picks_smallest_most_frequent [Some "b"; Some "a"; None] "a").
  reflexivity.
Defined.

(** X11: the summary block comes through exactly when the country, the
    attack-type and the target-type column of the view each hold a value.
    On an empty view it ends in [ValueError]; on a view with rows in which
    one of the three columns is all null it ends in [IndexError]. *)
Theorem summary_needs_values_in_three_columns (v : DataFrame) :
  match summary_statistics v with
  | Ok _ => summary_columns_have_values v = true
  | Raise e =>
      summary_columns_have_values v = false
      /\ e = match v with
             | [] => ValueError
             | _ :: _ => IndexError
             end
  end.
Proof.
  destruct v as [|r v]; [simpl; auto|].
  unfold summary_statistics, summary_columns_have_values. cbv zeta.
  destruct (peak_year_spec (r :: v)) as (y & Hy & _); [discriminate|].
  rewrite Hy. cbn [bind].
  pose proof (iloc0_mode (map country (r :: v))) as Hc.
  pose proof (iloc0_mode (map attack_type (r :: v))) as Ha.
  pose proof (iloc0_mode (map target_type (r :: v))) as Ht.
  destruct (has_value (map country (r :: v)));
    [destruct Hc as (kc & ->) | rewrite Hc; cbn; auto].
  cbn [bind].
  destruct (has_value (map attack_type (r :: v)));
    [destruct Ha as (ka & ->) | rewrite Ha; cbn; auto].
  cbn [bind].
  destruct (has_value (map target_type (r :: v)));
    [destruct Ht as (kt & ->) | rewrite Ht; cbn; auto].
  reflexivity.
Qed.


(** ** The map: proofs *)

(** X12: the map never fails and never shows more than 5000 points: the
    sampling step is reached only with more than 5000 geo-tagged rows, where
    the draw is in range, and otherwise all geo-tagged rows are shown as they
    stand. *)
Theorem map_data_at_most_5000
  (choice : Z -> nat -> nat -> list nat) (v : DataFrame) :
  choice_contract choice ->
  exists s,
    map_data choice v = Ok s
    /\ length s = Nat.min 5000 (length (geo_rows v))
    /\ incl s (geo_rows v)
    /\ (s = geo_rows v \/ (5000 < length (geo_rows v))%nat).
Proof.
  intros Hc. unfold map_data, sample.
  destruct (Nat.ltb_spec 5000 (length (geo_rows v))) as [Hbig|Hsmall].
  - destruct (Hc 42 (length (geo_rows v)) 5000%nat) as (Hlen & _ & Hrange);
      [lia|].
    destruct (take_in_range (geo_rows v) _ Hrange) as (s & Hs & H2).
    destruct (Nat.ltb_spec (length (geo_rows v)) 5000); [lia|].
    exists s. split; [exact Hs|]. split.
    { rewrite <- (Forall2_length H2), Hlen. lia. }
    split; [|now right].
    clear Hs Hlen Hrange. intros r Hr.
    induction H2 as [|i x idx s Hi _ IH]; [destruct Hr|].
    destruct Hr as [<-|Hr]; [eapply nth_error_In; exact Hi | now apply IH].
  - exists (geo_rows v). split; [reflexivity|]. split; [lia|].
    split; [apply incl_refl | now left].
Qed.

Lemma map_data_at_most_5000_witness :
  exists s,
    map_data first_positions scenario_dataset = Ok s
    /\ length s = Nat.min 5000 (length (geo_rows scenario_dataset))
    /\ incl s (geo_rows scenario_dataset)
    /\ (s = geo_rows scenario_dataset
        \/ (5000 < length (geo_rows scenario_dataset))%nat).
Proof.
  apply (map_data_at_most_5000 first_positions scenario_dataset).
  exact first_positions_contract.
Defined.

(** ** Month chart: proofs *)

Lemma mapM_ok {A B : Type} (f : A -> result B) (l : list A) :
  Forall (fun x => exists y, f x = Ok y) l ->
  exists ys, mapM f l = Ok ys /\ Forall2 (fun x y => f x = Ok y) l ys.
Proof.
  induction 1 as [|x l [y Hy] _ (ys & Hys & H2)]; simpl.
  - exists []. split; [reflexivity | constructor].
  - exists (y :: ys). rewrite Hy, Hys. split; [reflexivity | now constructor].
Qed.

Lemma py_getitem_month (m : Z) :
  1 <= m <= 12 ->
  exists name,
    py_getitem month_names (m - 1) = Ok name
    /\ nth_error month_names (Z.to_nat (m - 1)) = Some name.
Proof.
  intros Hm. unfold py_getitem.
  change (Z.of_nat (length month_names)) with 12.
  destruct (Z.ltb_spec (m - 1) 0); [lia|].
  destruct (Z.leb_spec 0 (m - 1)); [|lia].
  destruct (Z.ltb_spec (m - 1) 12); [|lia]. simpl andb. cbv iota.
  destruct (nth_error month_names (Z.to_nat (m - 1))) as [name|] eqn:E.
  - now exists name.
  - apply nth_error_None in E. simpl in E. lia.
Qed.

Lemma sorted_filter {A : Type} (R : A -> A -> Prop) (p : A -> bool)
  (l : list A) :
  StronglySorted R l -> StronglySorted R (filter p l).
Proof.
  induction 1 as [|x l Hs IH Hx]; simpl; [constructor|].
  destruct (p x); [|exact IH]. constructor; [exact IH|].
  rewrite Forall_forall in *. intros y Hy. apply filter_In in Hy as [Hy _].
  now apply Hx.
Qed.

Lemma Forall2_map_l {A B C : Type} (f : A -> C) (g : B -> C)
  (l : list A) (l' : list B) :
  Forall2 (fun x y => f x = g y) l l' -> map f l = map g l'.
Proof. induction 1; simpl; congruence. Qed.

Lemma month_sizes_keys (l : list (Z * list Incident)) :
  map fst
      (filter (fun g : Z * Z => (1 <=? fst g) && (fst g <=? 12))
              (map (fun g => (fst g, Z.of_nat (length (snd g)))) l))
  = filter (fun k => (1 <=? k) && (k <=? 12)) (map fst l).
Proof.
  induction l as [|g l IH]; [reflexivity|].
  cbn [map filter fst snd].
  destruct ((1 <=? fst g) && (fst g <=? 12)); cbn [map fst];
    [f_equal|]; exact IH.
Qed.

(** X14: the month chart never fails on the name lookup.  It has one bar per
    month from 1 to 12 that occurs in the view, in calendar order, named by
    position in the list of month names and as high as the number of rows of
    that month; a month cell outside 1 to 12 gets no bar. *)
Theorem monthly_names_always_found (v : DataFrame) :
  exists rows,
    monthly v = Ok rows
    /\ StronglySorted Z.lt (map m_month rows)
    /\ Forall (fun row =>
                 1 <= m_month row <= 12
                 /\ In (m_month row) (map month v)
                 /\ nth_error month_names (Z.to_nat (m_month row - 1))
                    = Some (month_name row)
                 /\ m_attacks row
                    = Z.of_nat
                        (length (filter (fun r => month r =? m_month row) v)))
              rows
    /\ (forall m, In m (map m_month rows)
                  <-> In m (map month v) /\ 1 <= m <= 12).
Proof.
  unfold monthly.
  set (sizes := map (fun g => (fst g, Z.of_nat (length (snd g))))
                    (groupby_Z month v)).
  set (kept := filter (fun g : Z * Z => (1 <=? fst g) && (fst g <=? 12)) sizes).
  set (f := fun g : Z * Z =>
              name <- py_getitem month_names (fst g - 1) ;;
              Ok (mkMonthly (fst g) (snd g) name)).
  assert (Hkept : forall g, In g kept ->
            1 <= fst g <= 12 /\ In (fst g) (map month v)
            /\ snd g = Z.of_nat
                         (length (filter (fun r => month r =? fst g) v))).
  { intros g Hg. apply filter_In in Hg as [Hg Hm].
    apply andb_true_iff in Hm as [H1 H2]. split; [lia|].
    unfold sizes in Hg. apply in_map_iff in Hg as (g0 & <- & Hg0).
    unfold groupby_Z in Hg0. apply in_map_iff in Hg0 as (k & <- & Hk).
    rewrite sort_by_In, unique_In in Hk. simpl. split; [exact Hk | reflexivity]. }
  assert (Hok : Forall (fun g => exists y, f g = Ok y) kept).
  { apply Forall_forall. intros g Hg.
    destruct (py_getitem_month (fst g)) as (name & Hn & _);
      [now apply Hkept|].
    unfold f. rewrite Hn. now eexists. }
  destruct (mapM_ok f kept Hok) as (rows & Hrows & H2).
  exists rows. split; [exact Hrows|].
  assert (Hmonths : map m_month rows = map fst kept).
  { symmetry. apply Forall2_map_l.
    eapply Forall2_impl; [|exact H2]. intros g row Hg. unfold f in Hg.
    destruct (py_getitem month_names (fst g - 1)); [|discriminate].
    now injection Hg as <-. }
  assert (Hfst : map fst kept
                 = filter (fun k => (1 <=? k) && (k <=? 12))
                          (map fst (groupby_Z month v))).
  { unfold kept, sizes. apply month_sizes_keys. }
  destruct (groupby_Z_keys_spec month v) as (Hnd & Hs & Hin).
  split; [|split].
  - rewrite Hmonths, Hfst. apply sorted_filter.
    now apply sorted_le_NoDup_lt.
  - clear Hok Hrows Hmonths Hfst.
    induction H2 as [|g row kept' rows' Hg _ IH]; constructor.
    + destruct (Hkept g) as (Hm & Hv & Hn); [now left|].
      destruct (py_getitem_month (fst g) Hm) as (name & Hname & Hnth).
      unfold f in Hg. rewrite Hname in Hg. injection Hg as <-.
      simpl. repeat split; try assumption; lia.
    + apply IH. intros g' Hg'. apply Hkept. now right.
  - intros m. rewrite Hmonths, Hfst, filter_In, Hin. split.
    + intros [Hm Hb]. apply andb_true_iff in Hb. split; [exact Hm | lia].
    + intros [Hm Hb]. split; [exact Hm|]. apply andb_true_iff. lia.
Qed.

(** ** Decade chart: proofs *)







(** ** Groups tab: proofs *)

Lemma groupby_str_spec (key : Incident -> option string) (v : DataFrame)
  (g : string * DataFrame) :
  In g (groupby_str key v) ->
  snd g = filter (fun r => str_eq (key r) (fst g)) v
  /\ exists r, In r v /\ key r = Some (fst g).
Proof.
  unfold groupby_str. intros Hg. apply in_map_iff in Hg as (k & <- & Hk).
  split; [reflexivity|]. simpl.
  rewrite sort_by_In, unique_In, dropna_In in Hk.
  apply in_map_iff in Hk as (r & Hr & Hin). now exists r.
Qed.

Lemma groupby_str_keys (key : Incident -> option string) (v : DataFrame) :
  map fst (groupby_str key v) = sorted_unique (map key v).
Proof.
  unfold groupby_str, sorted_unique. rewrite map_map. simpl. apply map_id.
Qed.

Lemma year_min_spec (l : list Z) :
  l <> [] -> In (year_min l) l /\ Forall (fun y => year_min l <= y) l.
Proof.
  destruct l as [|y t]; [congruence|]. intros _. apply fold_min_spec.
Qed.

Lemma year_max_spec (l : list Z) :
  l <> [] -> In (year_max l) l /\ Forall (fun y => y <= year_max l) l.
Proof.
  destruct l as [|y t]; [congruence|]. intros _. apply fold_max_spec.
Qed.

Lemma not_unknown_some (k : string) :
  not_unknown (Some k) = true <-> k <> "Unknown".
Proof.
  simpl. destruct (String.eqb_spec k "Unknown"); simpl; split;
    congruence.
Qed.

Lemma top_groups_names (v : DataFrame) :
  map g_name (top_groups v) = sorted_unique (map group_name (df_groups v)).
Proof.
  unfold top_groups. rewrite map_map. simpl.
  change (map (fun x : string * list Incident => fst x)
              (groupby_str group_name (df_groups v)))
    with (map fst (groupby_str group_name (df_groups v))).
  apply groupby_str_keys.
Qed.

Lemma top_groups_name_spec (v : DataFrame) (k : string) :
  In k (map g_name (top_groups v))
  <-> In (Some k) (map group_name v) /\ k <> "Unknown".
Proof.
  rewrite top_groups_names.
  destruct (sorted_unique_spec (map group_name (df_groups v))) as (_ & _ & H).
  rewrite H, !in_map_iff. unfold df_groups. split.
  - intros (r & Hk & Hr). apply filter_In in Hr as [Hr Hu].
    rewrite Hk in Hu. apply not_unknown_some in Hu. split; [|exact Hu].
    now exists r.
  - intros [(r & Hk & Hr) Hu]. exists r. split; [exact Hk|].
    apply filter_In. split; [exact Hr|]. rewrite Hk.
    now apply not_unknown_some.
Qed.

(** X16: the groups table has one row per named group of the view, never one
    for "Unknown".  Each row counts at least one attack; its first and last
    year are years of attacks of that group and enclose all of them, and its
    span of activity is at least one year. *)
Theorem top_groups_rows_consistent (v : DataFrame) :
  NoDup (map g_name (top_groups v))
  /\ (forall k, In k (map g_name (top_groups v))
                <-> In (Some k) (map group_name v) /\ k <> "Unknown")
  /\ Forall (fun g =>
               1 <= g_attacks g
               /\ first_year g <= last_year g
               /\ years_active g = last_year g - first_year g + 1
               /\ 1 <= years_active g
               /\ (exists r, In r v /\ group_name r = Some (g_name g)
                             /\ year r = first_year g)
               /\ (exists r, In r v /\ group_name r = Some (g_name g)
                             /\ year r = last_year g)
               /\ Forall (fun r => group_name r = Some (g_name g) ->
                                   first_year g <= year r <= last_year g) v)
            (top_groups v).
Proof.
  split; [rewrite top_groups_names; apply sorted_unique_spec|].
  split; [apply top_groups_name_spec|].
  apply Forall_forall. intros g Hg. unfold top_groups in Hg.
  apply in_map_iff in Hg as ([k rows] & <- & Hgrp).
  destruct (groupby_str_spec _ _ _ Hgrp) as (Hrows & r0 & Hr0 & Hk0).
  simpl in Hrows, Hk0. cbn [fst snd g_name g_attacks first_year last_year
                             years_active].
  assert (Hmem : forall r, In r rows <->
                           In r (df_groups v) /\ group_name r = Some k).
  { intros r. rewrite Hrows, filter_In. now rewrite str_eq_true. }
  assert (Hne : map year rows <> []).
  { assert (In r0 rows) by (apply Hmem; auto).
    destruct rows; [contradiction | discriminate]. }
  destruct (year_min_spec _ Hne) as (Hmin_in & Hmin).
  destruct (year_max_spec _ Hne) as (Hmax_in & Hmax).
  rewrite Forall_forall in Hmin, Hmax.
  assert (Hle : year_min (map year rows) <= year_max (map year rows))
    by (apply Hmax, Hmin_in).
  assert (Hsub : forall r, In r rows -> In r v).
  { intros r Hr. apply Hmem in Hr as [Hr _]. unfold df_groups in Hr.
    now apply filter_In in Hr. }
  split.
  { destruct rows; [now destruct Hne | simpl length; lia]. }
  split; [exact Hle|]. split; [reflexivity|]. split; [lia|].
  split; [|split].
  - apply in_map_iff in Hmin_in as (r & Hy & Hr). exists r.
    split; [now apply Hsub|]. split; [now apply Hmem | exact Hy].
  - apply in_map_iff in Hmax_in as (r & Hy & Hr). exists r.
    split; [now apply Hsub|]. split; [now apply Hmem | exact Hy].
  - apply Forall_forall. intros r Hr Hk.
    assert (Hin : In r rows).
    { apply Hmem. split; [|exact Hk]. unfold df_groups. apply filter_In.
      split; [exact Hr|]. rewrite Hk.
      assert (Hu : not_unknown (group_name r0) = true).
      { unfold df_groups in Hr0. now apply filter_In in Hr0. }
      now rewrite Hk0 in Hu. }
    split; [apply Hmin | apply Hmax]; now apply in_map.
Qed.

Lemma year_name_keys_In (key : Incident -> option string) (v : DataFrame)
  (y : Z) (k : string) :
  In (y, k) (year_name_keys key v)
  <-> exists r, In r v /\ year r = y /\ key r = Some k.
Proof.
  induction v as [|r v IH]; simpl.
  - split; [easy | now intros (r & [] & _)].
  - destruct (key r) as [k0|] eqn:E; simpl; rewrite IH; split.
    + intros [H|(r' & Hr' & H)].
      * injection H as <- <-. exists r. auto.
      * exists r'. auto.
    + intros (r' & [<-|Hr'] & Hy & Hk).
      * left. congruence.
      * right. now exists r'.
    + intros (r' & Hr' & H). exists r'. auto.
    + intros (r' & [<-|Hr'] & Hy & Hk); [congruence|]. now exists r'.
Qed.

Lemma size_by_year_and_spec (key : Incident -> option string) (v : DataFrame) :
  NoDup (map (fun e => (fst (fst e), snd (fst e))) (size_by_year_and key v))
  /\ Forall (fun e =>
               (exists r, In r v /\ year r = fst (fst e)
                          /\ key r = Some (snd (fst e)))
               /\ snd e
                  = Z.of_nat
                      (length (filter (fun r => (year r =? fst (fst e))
                                                && str_eq (key r) (snd (fst e)))
                                      v)))
            (size_by_year_and key v).
Proof.
  unfold size_by_year_and.
  set (ks := sort_by year_name_leb
               (unique year_name_dec (year_name_keys key v))).
  split.
  - rewrite map_map. simpl.
    rewrite (map_ext _ (fun k => k)) by (now intros [y k]).
    rewrite map_id. eapply Permutation_NoDup; [symmetry; apply sort_by_perm|].
    apply unique_NoDup.
  - apply Forall_forall. intros e He.
    apply in_map_iff in He as ([y k] & <- & Hk). simpl.
    split; [|reflexivity].
    unfold ks in Hk. rewrite sort_by_In, unique_In in Hk.
    now apply year_name_keys_In.
Qed.

Lemma isin_true (g : option string) (values : list string) :
  isin g values = true <-> exists k, g = Some k /\ In k values.
Proof.
  destruct g as [x|]; simpl.
  - rewrite existsb_exists. split.
    + intros (k & Hk & E). apply String.eqb_eq in E. subst. now exists k.
    + intros (k & E & Hk). injection E as ->. exists k.
      split; [exact Hk | apply String.eqb_refl].
  - split; [discriminate | now intros (k & E & _)].
Qed.

Lemma top5_spec (v : DataFrame) :
  (length (top5 v) <= 5)%nat
  /\ incl (top5 v) (map g_name (top_groups v)).
Proof.
  unfold top5.
  destruct (nlargest_spec 5 g_attacks (top_groups v)) as (Hlen & Hincl & _).
  split.
  - rewrite length_map, Hlen. lia.
  - intros k Hk. apply in_map_iff in Hk as (g & <- & Hg).
    apply in_map. now apply Hincl.
Qed.

(** ** The lethality clip: how much it keeps *)

Lemma filter_nkill_count (p : Z -> bool) (v : DataFrame) :
  length (filter (fun r => match nkill r with
                           | Some k => p k
                           | None => false
                           end) v)
  = length (filter p (dropna (map nkill v))).
Proof.
  induction v as [|r v IH]; simpl; [reflexivity|].
  destruct (nkill r) as [k|]; simpl; [|exact IH].
  destruct (p k); simpl; congruence.
Qed.

Lemma sorted_prefix_passes (s : list Z) (p : Z -> bool) (m : nat) :
  StronglySorted Z.le s ->
  (m < length s)%nat ->
  (forall x, x <= nth m s 0 -> p x = true) ->
  (m + 1 <= length (filter p s))%nat.
Proof.
  intros Hs Hm Hp.
  rewrite <- (firstn_skipn (m + 1) s), filter_app, length_app.
  rewrite filter_all_true.
  - rewrite length_firstn. lia.
  - apply Forall_forall. intros x Hx.
    destruct (In_nth _ _ 0 Hx) as (i & Hi & <-).
    rewrite length_firstn in Hi. rewrite nth_firstn.
    destruct (Nat.ltb_spec i (m + 1)); [|lia].
    apply Hp. apply sorted_nth_le; [exact Hs | lia].
Qed.

(** X18: the clip keeps more than nineteen twentieths of the rows that have a
    death toll, short of one row: with [n] such rows, more than
    [19 * (n - 1) / 20] are passed on, so the box plot is empty only when no
    row of the view has a toll. *)
Theorem boxplot_keeps_most_rows (v : DataFrame) :
  19 * (Z.of_nat (length (dropna (map nkill v))) - 1)
  < 20 * Z.of_nat (length (boxplot_input v))
  /\ (length (boxplot_input v) <= length (dropna (map nkill v)))%nat.
Proof.
  unfold boxplot_input, quantile95. cbv zeta.
  set (vals := dropna (map nkill v)).
  pose proof (sort_by_length Z.leb vals) as Hls.
  pose proof (sort_Z_sorted vals) as Hss.
  pose proof (sort_by_perm Z.leb vals) as Hperm.
  remember (sort_by Z.leb vals) as s eqn:Es. clear Es.
  destruct s as [|x0 t] eqn:E0.
  - simpl in Hls. rewrite <- Hls. simpl.
    rewrite (filter_all_false _ v); [simpl; lia|].
    apply Forall_forall. intros r _. now destruct (nkill r).
  - rewrite <- E0 in *.
    assert (Hpos : (0 < length s)%nat) by (rewrite E0; simpl; lia).
    clear E0.
    set (n := Z.of_nat (length s)).
    assert (Hn : 1 <= n) by (unfold n; lia).
    set (lo := 19 * (n - 1) / 20).
    set (g := (19 * (n - 1)) mod 20).
    assert (Hlo : 0 <= lo <= n - 1 /\ 19 * (n - 1) < 20 * (lo + 1)).
    { unfold lo. pose proof (Z.div_mod (19 * (n - 1)) 20).
      pose proof (Z.mod_pos_bound (19 * (n - 1)) 20). lia. }
    assert (Hg : 0 <= g < 20) by (apply Z.mod_pos_bound; lia).
    set (a := nth (Z.to_nat lo) s x0).
    set (b := nth (Z.to_nat (Z.min (lo + 1) (n - 1))) s x0).
    assert (Ha : a = nth (Z.to_nat lo) s 0)
      by (apply nth_indep; unfold n in *; lia).
    assert (Hab : a <= b).
    { unfold a, b.
      rewrite (nth_indep s x0 0) by (unfold n in *; lia).
      rewrite (nth_indep s x0 0 (n := Z.to_nat (Z.min (lo + 1) (n - 1))))
        by (unfold n in *; lia).
      apply sorted_nth_le; [exact Hss | unfold n in *; lia]. }
    set (p := fun k : Z =>
                Qle_bool (inject_Z k)
                         (inject_Z a + inject_Z g / 20 * inject_Z (b - a))%Q).
    change (filter _ v)
      with (filter (fun r => match nkill r with
                             | Some k => p k
                             | None => false
                             end) v).
    rewrite filter_nkill_count. fold vals.
    rewrite <- (filter_perm_length p s vals Hperm). split.
    + assert (Hpre : (Z.to_nat lo + 1 <= length (filter p s))%nat).
      { apply sorted_prefix_passes; [exact Hss | unfold n in *; lia |].
        intros x Hx. unfold p. apply le_interpolated. rewrite <- Ha in Hx. nia. }
      rewrite <- Hls. fold n. lia.
    + rewrite <- Hls. apply filter_length_le.
Qed.

(** ** Rates, tables and timelines: proofs *)

Lemma Zpos_of_nat (n : nat) : (0 < n)%nat -> Z.pos (Pos.of_nat n) = Z.of_nat n.
Proof.
  intros H. destruct n as [|n]; [lia|].
  rewrite <- Pos.of_nat_succ, Zpos_P_of_succ_nat. lia.
Qed.

Lemma mean_some (xs : list Z) :
  xs <> [] ->
  exists q, mean xs = Some q
            /\ (q == (Zsum xs # Pos.of_nat (length xs)))%Q.
Proof.
  intros H. destruct xs as [|x t]; [congruence|].
  eexists. split; [reflexivity|]. apply Qred_correct.
Qed.

Lemma Zsum_01 (xs : list Z) :
  Forall (fun x => x = 0 \/ x = 1) xs ->
  Zsum xs = Z.of_nat (length (filter (fun x => x =? 1) xs)).
Proof.
  induction 1 as [|x xs Hx _ IH]; [reflexivity|].
  change (Zsum (x :: xs)) with (x + Zsum xs). rewrite IH.
  destruct Hx as [->| ->]; cbn [filter Z.eqb Pos.eqb length]; lia.
Qed.

Lemma percent_bounds (a : Z) (n : nat) :
  (0 < n)%nat -> 0 <= a <= Z.of_nat n ->
  (0 <= 100 * (a # Pos.of_nat n) <= 100)%Q.
Proof.
  intros Hn Ha. unfold Qle, Qmult. cbn -[Z.mul Pos.of_nat Z.le].
  rewrite Zpos_of_nat by exact Hn. lia.
Qed.

(** X13: on a view with rows whose [success] cells are all 0 or 1, the
    "Success Rate" metric is a number, not NaN: one hundred times the share of
    rows with [success = 1], hence between 0 and 100. *)
Theorem success_rate_is_share_of_successes (v : DataFrame) :
  v <> [] ->
  Forall (fun r => success r = 0 \/ success r = 1) v ->
  exists q,
    kpi_success_rate (kpi_metrics v) = Some q
    /\ (q == 100 * (Z.of_nat (length (filter (fun r => success r =? 1) v))
                    # Pos.of_nat (length v)))%Q
    /\ (0 <= q <= 100)%Q.
Proof.
  intros Hv H01.
  assert (Hne : map success v <> []) by (destruct v; [congruence|discriminate]).
  destruct (mean_some _ Hne) as (m & Hm & Hq).
  assert (Hs : Zsum (map success v)
               = Z.of_nat (length (filter (fun r => success r =? 1) v))).
  { rewrite Zsum_01.
    - clear. induction v as [|r v IH]; simpl; [reflexivity|].
      destruct (success r =? 1); simpl; lia.
    - apply Forall_map. exact H01. }
  rewrite Hs, length_map in Hq.
  exists (100 * m)%Q. split; [simpl; now rewrite Hm|]. split.
  - now rewrite Hq.
  - rewrite Hq. apply percent_bounds.
    + destruct v; [congruence | simpl; lia].
    + split; [lia|]. apply inj_le, filter_length_le.
Qed.

(** X19: once the year slider could be built, the "% of Total" metric never
    divides by zero, and it lies between 0 and 100 for every criteria. *)
Theorem percent_of_total_defined_in_range
  (df : DataFrame) (c : FilterCriteria) (lo hi : Z) :
  slider_bounds df = Ok (lo, hi) ->
  exists q,
    percent_of_total df (apply_filters df c) = inr q
    /\ (0 <= q <= 100)%Q.
Proof.
  intros Hb. unfold percent_of_total.
  assert (Hpos : (0 < length df)%nat).
  { destruct df; [discriminate | simpl; lia]. }
  destruct (length df) as [|n] eqn:En; [lia|]. rewrite <- En.
  eexists. split; [reflexivity|].
  assert (H : (0 <= 100 * (Z.of_nat (length (apply_filters df c))
                          # Pos.of_nat (length df)) <= 100)%Q).
  { apply percent_bounds; [lia|]. split; [lia|].
    apply inj_le. rewrite apply_filters_satisfies. apply filter_length_le. }
  now rewrite Qmult_comm.
Qed.

Lemma sorted_firstn {A : Type} (R : A -> A -> Prop) (n : nat) (l : list A) :
  StronglySorted R l -> StronglySorted R (firstn n l).
Proof.
  intros H. revert n. induction H as [|x l Hs IH Hx]; intros [|n]; simpl;
    try constructor.
  - apply IH.
  - rewrite Forall_forall in *. intros y Hy. apply Hx.
    rewrite <- (firstn_skipn n l). apply in_or_app. now left.
Qed.

Lemma sorted_desc {A : Type} (key : A -> Z) (l : list A) :
  StronglySorted (fun a b => key b <= key a)
                 (sort_by (fun a b => key b <=? key a) l).
Proof.
  assert (H : StronglySorted (fun a b => (key b <=? key a) = true)
                (sort_by (fun a b => key b <=? key a) l)).
  { apply sort_by_sorted; intros; lia. }
  induction H; constructor; [assumption|].
  eapply Forall_impl; [|eassumption]. simpl. intros; lia.
Qed.

(** X20: the data explorer shows at most 1000 rows of the view, latest year
    first; a row it leaves out is never more recent than a row it shows. *)
Theorem data_table_latest_1000 (v : DataFrame) :
  length (data_table v) = Nat.min 1000 (length v)
  /\ incl (data_table v) v
  /\ StronglySorted (fun a b => year b <= year a) (data_table v)
  /\ Forall (fun shown =>
               Forall (fun r => In r (data_table v) \/ year r <= year shown) v)
            (data_table v).
Proof.
  change (data_table v) with (nlargest 1000 year v).
  destruct (nlargest_spec 1000 year v) as (Hlen & Hincl & Htop).
  split; [exact Hlen|]. split; [exact Hincl|]. split; [|exact Htop].
  unfold nlargest. apply sorted_firstn, sorted_desc.
Qed.

Lemma value_counts_spec (col : list (option string)) :
  NoDup (map fst (value_counts col))
  /\ StronglySorted (fun a b => snd b <= snd a) (value_counts col)
  /\ (forall k n, In (k, n) (value_counts col)
                  <-> In (Some k) col
                      /\ n = Z.of_nat (count_occ string_dec (dropna col) k)).
Proof.
  unfold value_counts.
  set (vals := dropna col).
  set (tbl := map (fun k => (k, Z.of_nat (count_occ string_dec vals k)))
                  (unique string_dec vals)).
  pose proof (sort_by_perm (fun a b : string * Z => snd b <=? snd a) tbl)
    as Htbl.
  split; [|split].
  - eapply Permutation_NoDup;
      [apply Permutation_map; symmetry; exact Htbl|].
    unfold tbl. rewrite map_map. simpl. rewrite map_id. apply unique_NoDup.
  - apply sorted_desc.
  - intros k n. rewrite sort_by_In. unfold tbl. rewrite in_map_iff. split.
    + intros (k' & E & Hk'). injection E as -> <-.
      apply unique_In in Hk'. split; [now apply dropna_In | reflexivity].
    + intros [Hk ->]. exists k. split; [reflexivity|].
      apply unique_In. now apply dropna_In.
Qed.

(** X21: the target chart has at most ten bars, one per target type, in
    descending order of frequency; a bar is as long as the number of rows of
    its target type, and no target type without a bar is more frequent than
    one with a bar. *)
Theorem target_counts_top10 (v : DataFrame) :
  (length (target_counts v) <= 10)%nat
  /\ NoDup (map fst (target_counts v))
  /\ StronglySorted (fun a b => snd b <= snd a) (target_counts v)
  /\ Forall (fun e =>
               In (Some (fst e)) (map target_type v)
               /\ snd e
                  = Z.of_nat
                      (length (filter (fun r => str_eq (target_type r) (fst e))
                                      v)))
            (target_counts v)
  /\ Forall (fun e =>
               Forall (fun e' => In e' (target_counts v) \/ snd e' <= snd e)
                      (value_counts (map target_type v)))
            (target_counts v).
Proof.
  destruct (value_counts_spec (map target_type v)) as (Hnd & Hs & Hin).
  unfold target_counts.
  set (vc := value_counts (map target_type v)) in *.
  split; [rewrite length_firstn; lia|]. split; [|split; [|split]].
  - rewrite <- firstn_map.
    rewrite <- (firstn_skipn 10 (map fst vc)) in Hnd.
    now apply NoDup_app_remove_r in Hnd.
  - now apply sorted_firstn.
  - apply Forall_forall. intros [k n] He.
    assert (Hvc : In (k, n) vc).
    { rewrite <- (firstn_skipn 10 vc). apply in_or_app. now left. }
    apply Hin in Hvc as [Hk ->]. simpl. split; [exact Hk|].
    now rewrite count_occ_rows.
  - rewrite <- (firstn_skipn 10 vc) in Hs.
    assert (Hge : Forall (fun x => Forall (fun y => snd y <= snd x)
                                           (skipn 10 vc)) (firstn 10 vc)).
    { clear -Hs. induction (firstn 10 vc) as [|a l IH]; [constructor|].
      simpl in Hs. inversion Hs as [|? ? Hs' Ha]; subst.
      constructor; [|now apply IH].
      now apply Forall_app in Ha as [_ Ha]. }
    eapply Forall_impl; [|exact Hge]. intros e He.
    apply Forall_forall. intros e' He'.
    rewrite <- (firstn_skipn 10 vc) in He'.
    apply in_app_or in He' as [He'|He']; [now left | right].
    rewrite Forall_forall in He. now apply He.
Qed.

Lemma filter_pair_NoDup (ks : list (Z * string)) (y : Z) (k : string) :
  NoDup ks -> In (y, k) ks ->
  length (filter (fun kk => (y =? fst kk) && String.eqb k (snd kk)) ks) = 1%nat.
Proof.
  induction 1 as [|[y0 k0] ks Hk Hnd IH]; simpl; [easy|].
  intros [E|Hin].
  - injection E as -> ->. rewrite Z.eqb_refl, String.eqb_refl. simpl. f_equal.
    rewrite filter_all_false; [reflexivity|].
    apply Forall_forall. intros [y' k'] Hy. simpl.
    destruct (Z.eqb_spec y y'), (String.eqb_spec k k'); try reflexivity.
    subst. contradiction.
  - destruct (Z.eqb_spec y y0), (String.eqb_spec k k0); simpl;
      try (now apply IH).
    subst. contradiction.
Qed.

Lemma size_by_year_and_sum (key : Incident -> option string) (v : DataFrame) :
  Zsum (map snd (size_by_year_and key v))
  + Z.of_nat (length (filter (fun r => negb (notna (key r))) v))
  = Z.of_nat (length v).
Proof.
  unfold size_by_year_and.
  set (ks := sort_by year_name_leb
               (unique year_name_dec (year_name_keys key v))).
  assert (Hnd : NoDup ks).
  { eapply Permutation_NoDup; [symmetry; apply sort_by_perm|].
    apply unique_NoDup. }
  rewrite map_map. simpl.
  rewrite (Zsum_ext_in _ (fun k => Zsum (map (fun _ => 1)
             (filter (fun r => (year r =? fst k) && str_eq (key r) (snd k)) v))))
    by (intros k _; apply length_rows).
  rewrite (group_sums (fun k r => (year r =? fst k) && str_eq (key r) (snd k))).
  rewrite !length_rows.
  rewrite <- (Zsum_null_split key (fun _ => 1) v). f_equal.
  apply Zsum_ext_in. intros r Hr.
  destruct (key r) as [k|] eqn:E; cbn [notna str_eq].
  - rewrite filter_pair_NoDup; [lia | exact Hnd |].
    unfold ks. rewrite sort_by_In, unique_In.
    apply year_name_keys_In. now exists r.
  - rewrite filter_all_false; [cbn [length]; lia|].
    apply Forall_forall. intros kk _. apply andb_false_r.
Qed.

(** X22: the regional timeline is built exactly when no region is selected.
    It has one point per year and region that occur together, as high as the
    number of rows of that pair, and the points add up to the rows of the
    view less the rows without a region. *)
Theorem region_yearly_only_without_region
  (c : FilterCriteria) (v : DataFrame) :
  match region_yearly c v with
  | None => selected_region c <> "All Regions"
  | Some pts =>
      selected_region c = "All Regions"
      /\ NoDup (map (fun e => (fst (fst e), snd (fst e))) pts)
      /\ Forall (fun e =>
                   1 <= snd e
                   /\ snd e
                      = Z.of_nat
                          (length
                             (filter (fun r => (year r =? fst (fst e))
                                               && str_eq (region r)
                                                         (snd (fst e)))
                                     v)))
                pts
      /\ Zsum (map snd pts)
         + Z.of_nat (length (filter (fun r => negb (notna (region r))) v))
         = Z.of_nat (length v)
  end.
Proof.
  unfold region_yearly.
  destruct (String.eqb_spec (selected_region c) "All Regions") as [E|E];
    [|exact E].
  split; [exact E|].
  destruct (size_by_year_and_spec region v) as (Hnd & Hall).
  split; [exact Hnd|]. split; [|apply size_by_year_and_sum].
  eapply Forall_impl; [|exact Hall]. intros [[y k] n]. simpl.
  intros ((r & Hr & Hy & Hk) & Hn). split; [|exact Hn].
  rewrite Hn.
  assert (Hmem : In r (filter (fun r => (year r =? y)
                                        && str_eq (region r) k) v)).
  { apply filter_In. split; [exact Hr|].
    apply andb_true_iff. split; [lia | now apply str_eq_true]. }
  destruct (filter _ v); [destruct Hmem | simpl length; lia].
Qed.

Lemma mean_none (xs : list Z) : mean xs = None <-> xs = [].
Proof. destruct xs; simpl; split; congruence. Qed.

(** X23: the efficiency scatter has one point per attack type of the view, in
    ascending order of the name.  A point's size is the number of rows of its
    type, its success rate is always a number, and its average death toll is
    NaN exactly when no row of the type has a toll; the sizes add up to the
    rows of the view less the rows without an attack type. *)
Theorem attack_eff_rows (v : DataFrame) :
  NoDup (map e_attack_type (attack_eff v))
  /\ StronglySorted (fun a b => String.leb a b = true)
                    (map e_attack_type (attack_eff v))
  /\ Forall (fun e =>
               In (Some (e_attack_type e)) (map attack_type v)
               /\ 1 <= e_total_attacks e
               /\ e_total_attacks e
                  = Z.of_nat
                      (length (filter (fun r => str_eq (attack_type r)
                                                       (e_attack_type e)) v))
               /\ (exists q, e_success_rate e = Some q)
               /\ match e_avg_killed e with
                  | None =>
                      Forall (fun r => attack_type r = Some (e_attack_type e)
                                       -> nkill r = None) v
                  | Some _ =>
                      exists r k, In r v
                                  /\ attack_type r = Some (e_attack_type e)
                                  /\ nkill r = Some k
                  end)
            (attack_eff v)
  /\ Zsum (map e_total_attacks (attack_eff v))
     + Z.of_nat (length (filter (fun r => negb (notna (attack_type r))) v))
     = Z.of_nat (length v).
Proof.
  assert (Hkeys : map e_attack_type (attack_eff v)
                  = sorted_unique (map attack_type v)).
  { unfold attack_eff. rewrite map_map. simpl.
    change (map (fun x : string * list Incident => fst x)
                (groupby_str attack_type v))
      with (map fst (groupby_str attack_type v)).
    apply groupby_str_keys. }
  destruct (sorted_unique_spec (map attack_type v)) as (Hnd & Hs & Hin).
  rewrite Hkeys. split; [exact Hnd|]. split; [exact Hs|]. split.
  - apply Forall_forall. intros e He. unfold attack_eff in He.
    apply in_map_iff in He as ([k rows] & <- & Hg).
    destruct (groupby_str_spec _ _ _ Hg) as (Hrows & r0 & Hr0 & Hk0).
    simpl in Hrows, Hk0.
    cbn [fst snd e_attack_type e_total_attacks e_success_rate e_avg_killed].
    assert (Hmem : forall r, In r rows <-> In r v /\ attack_type r = Some k).
    { intros r. rewrite Hrows, filter_In. now rewrite str_eq_true. }
    assert (H0 : In r0 rows) by (apply Hmem; auto).
    split; [rewrite <- Hk0; now apply in_map|].
    split; [destruct rows; [destruct H0 | simpl length; lia]|].
    split; [now rewrite Hrows|]. split.
    + destruct rows as [|r rows']; [destruct H0|]. simpl. now eexists.
    + destruct (mean (dropna (map nkill rows))) as [q|] eqn:Em.
      * assert (Hne : dropna (map nkill rows) <> []).
        { intros E. apply mean_none in E. congruence. }
        destruct (dropna (map nkill rows)) as [|x t] eqn:Ed; [congruence|].
        assert (Hx : In x (dropna (map nkill rows))) by (rewrite Ed; now left).
        apply dropna_In, in_map_iff in Hx as (r & Hn & Hr).
        apply Hmem in Hr as [Hr Hk]. now exists r, x.
      * apply mean_none in Em. apply Forall_forall. intros r Hr Hk.
        destruct (nkill r) as [x|] eqn:En; [|reflexivity].
        assert (Hx : In x (dropna (map nkill rows))).
        { apply dropna_In. rewrite <- En. apply in_map. now apply Hmem. }
        rewrite Em in Hx. destruct Hx.
  - unfold attack_eff. rewrite map_map. simpl.
    rewrite (Zsum_ext_in _ (fun g => Zsum (map (fun _ => 1) (snd g))))
      by (intros g _; apply length_rows).
    rewrite groupby_str_sum, !length_rows.
    apply (Zsum_null_split attack_type (fun _ => 1)).
Qed.

Lemma success_rate_is_share_of_successes_witness :
  exists q,
    kpi_success_rate (kpi_metrics scenario_dataset) = Some q
    /\ (q == 100 * (Z.of_nat
                      (length (filter (fun r => success r =? 1)
                                      scenario_dataset))
                    # Pos.of_nat (length scenario_dataset)))%Q
    /\ (0 <= q <= 100)%Q.
Proof.
  apply (success_rate_is_share_of_successes scenario_dataset).
  - discriminate.
  - constructor; [right; reflexivity|].
    constructor; [left; reflexivity | constructor].
Defined.

Lemma percent_of_total_defined_in_range_witness :
  exists q,
    percent_of_total scenario_dataset
      (apply_filters scenario_dataset scenario_criteria) = inr q
    /\ (0 <= q <= 100)%Q.
Proof.
  apply (percent_of_total_defined_in_range scenario_dataset scenario_criteria
           1999 2001).
  reflexivity.
Defined.

(** X24: each of the two ranked group charts shows at most fifteen rows of
    the groups table; no group left out of the first has more attacks, and
    no group left out of the second more deaths, than a group shown. *)
Theorem top15_group_charts (v : DataFrame) :
  length (top15_attacks v) = Nat.min 15 (length (top_groups v))
  /\ incl (top15_attacks v) (top_groups v)
  /\ Forall (fun x =>
               Forall (fun y => In y (top15_attacks v)
                                \/ g_attacks y <= g_attacks x)
                      (top_groups v))
            (top15_attacks v)
  /\ length (top15_deadly v) = Nat.min 15 (length (top_groups v))
  /\ incl (top15_deadly v) (top_groups v)
  /\ Forall (fun x =>
               Forall (fun y => In y (top15_deadly v)
                                \/ g_killed y <= g_killed x)
                      (top_groups v))
            (top15_deadly v).
Proof.
  destruct (nlargest_spec 15 g_attacks (top_groups v)) as (H1 & H2 & H3).
  destruct (nlargest_spec 15 g_killed (top_groups v)) as (H4 & H5 & H6).
  unfold top15_attacks, top15_deadly. repeat split; assumption.
Qed.

(** ** Heatmap and regional rates: proofs *)

Lemma rate_leb_total (a b : option Q) :
  rate_leb a b = true \/ rate_leb b a = true.
Proof.
  destruct a as [x|], b as [y|]; simpl; auto.
  rewrite !Qle_bool_iff. destruct (Qlt_le_dec x y) as [H|H]; [left|right];
    [now apply Qlt_le_weak | exact H].
Qed.

Lemma rate_leb_trans (a b c : option Q) :
  rate_leb a b = true -> rate_leb b c = true -> rate_leb a c = true.
Proof.
  destruct a as [x|], b as [y|], c as [z|]; simpl; try easy.
  rewrite !Qle_bool_iff. apply Qle_trans.
Qed.

Lemma rates_sorted {A : Type} (l : list (A * option Q)) :
  StronglySorted (fun a b => rate_leb (snd a) (snd b) = true)
                 (sort_by (fun a b => rate_leb (snd a) (snd b)) l).
Proof.
  apply sort_by_sorted.
  - intros x y. apply rate_leb_total.
  - intros x y z. apply rate_leb_trans.
Qed.

Lemma region_stats_names (v : DataFrame) :
  map r_region (region_stats v) = map fst (groupby_str region v).
Proof. unfold region_stats. rewrite map_map. reflexivity. Qed.

(** X25: both regional bar charts list every region of the view once, in
    ascending order of the rate with NaN last.  The success rate of a region
    is always a number; the mean death toll of a region is NaN exactly when
    none of its rows has a toll. *)
Theorem regional_rate_charts_ascending (v : DataFrame) :
  StronglySorted (fun a b => rate_leb (snd a) (snd b) = true)
                 (success_region v)
  /\ Permutation (map fst (success_region v))
                 (map r_region (region_stats v))
  /\ Forall (fun e => exists q, snd e = Some q) (success_region v)
  /\ StronglySorted (fun a b => rate_leb (snd a) (snd b) = true)
                    (lethality v)
  /\ Permutation (map fst (lethality v)) (map r_region (region_stats v))
  /\ Forall (fun e =>
               match snd e with
               | Some _ =>
                   exists r k, In r v /\ region r = Some (fst e)
                               /\ nkill r = Some k
               | None =>
                   Forall (fun r => region r = Some (fst e) -> nkill r = None)
                          v
               end)
            (lethality v).
Proof.
  rewrite region_stats_names.
  split; [apply rates_sorted|]. split.
  { unfold success_region. rewrite sort_by_perm, map_map. reflexivity. }
  split.
  { apply Forall_forall. intros e He. unfold success_region in He.
    apply sort_by_In, in_map_iff in He as ([k rows] & <- & Hg).
    destruct (groupby_str_spec _ _ _ Hg) as (Hrows & r0 & Hr0 & Hk0).
    simpl in Hrows, Hk0.
    assert (H0 : In r0 rows).
    { rewrite Hrows. apply filter_In. split; [exact Hr0|].
      now apply str_eq_true. }
    cbn [fst snd]. destruct rows as [|r rows']; [destruct H0|].
    simpl. now eexists. }
  split; [apply rates_sorted|]. split.
  { unfold lethality. rewrite sort_by_perm, map_map. reflexivity. }
  apply Forall_forall. intros e He. unfold lethality in He.
  apply sort_by_In, in_map_iff in He as ([k rows] & <- & Hg).
  destruct (groupby_str_spec _ _ _ Hg) as (Hrows & _).
  simpl in Hrows. cbn [fst snd].
  assert (Hmem : forall r, In r rows <-> In r v /\ region r = Some k).
  { intros r. rewrite Hrows, filter_In. now rewrite str_eq_true. }
  destruct (mean (dropna (map nkill rows))) as [q|] eqn:Em.
  - destruct (dropna (map nkill rows)) as [|x t] eqn:Ed; [discriminate|].
    assert (Hx : In x (dropna (map nkill rows))) by (rewrite Ed; now left).
    apply dropna_In, in_map_iff in Hx as (r & Hn & Hr).
    apply Hmem in Hr as [Hr Hk]. now exists r, x.
  - apply mean_none in Em. apply Forall_forall. intros r Hr Hk.
    destruct (nkill r) as [x|] eqn:En; [|reflexivity].
    assert (Hx : In x (dropna (map nkill rows))).
    { apply dropna_In. rewrite <- En. apply in_map. now apply Hmem. }
    rewrite Em in Hx. destruct Hx.
Qed.

Lemma crosstab_row_sum (v : DataFrame) (reg : string) :
  Zsum (map (fun a =>
               Z.of_nat
                 (length (filter (fun r => str_eq (region r) reg
                                           && str_eq (attack_type r) a) v)))
            (crosstab_columns v))
  = Z.of_nat (length (filter (fun r => str_eq (region r) reg)
                             (crosstab_rows v))).
Proof.
  rewrite (Zsum_ext_in _ (fun a => Zsum (map (fun _ => 1)
             (filter (fun r => str_eq (region r) reg
                               && str_eq (attack_type r) a) v))))
    by (intros a _; apply length_rows).
  rewrite (group_sums (fun a r => str_eq (region r) reg
                                  && str_eq (attack_type r) a)).
  unfold crosstab_rows at 1. rewrite filter_filter.
  rewrite <- (Z.mul_1_l (Z.of_nat _)), <- Zsum_indicator.
  destruct (sorted_unique_spec (map attack_type (crosstab_rows v)))
    as (Hnd & _ & Hin).
  fold (crosstab_columns v) in Hnd, Hin.
  apply Zsum_ext_in. intros r Hr.
  destruct (str_eq (region r) reg) eqn:Ereg.
  - apply str_eq_true in Ereg. rewrite Ereg. cbn [notna andb].
    destruct (attack_type r) as [a|] eqn:Ea; cbn [notna str_eq].
    + rewrite filter_eqb_NoDup_str; [cbn [andb]; lia | exact Hnd |].
      apply Hin. rewrite <- Ea. apply in_map. unfold crosstab_rows.
      apply filter_In. split; [exact Hr|]. now rewrite Ereg, Ea.
    + rewrite filter_all_false; [cbn [length andb]; lia|].
      apply Forall_forall. reflexivity.
  - rewrite andb_false_r.
    rewrite filter_all_false; [cbn [length]; lia|].
    apply Forall_forall. reflexivity.
Qed.

(** X26: the heatmap has one line per region and one cell per attack type
    among the rows that have both.  No line is empty, a line adds up to the
    number of such rows of its region, and all cells together to the number
    of rows with a region and an attack type. *)
Theorem crosstab_counts_paired_rows (v : DataFrame) :
  map fst (crosstab v) = crosstab_index v
  /\ NoDup (crosstab_index v)
  /\ NoDup (crosstab_columns v)
  /\ (forall reg, In reg (crosstab_index v)
                  <-> exists r, In r v /\ region r = Some reg
                                /\ notna (attack_type r) = true)
  /\ Forall (fun line =>
               length (snd line) = length (crosstab_columns v)
               /\ 1 <= Zsum (snd line)
               /\ Zsum (snd line)
                  = Z.of_nat
                      (length (filter (fun r => str_eq (region r) (fst line))
                                      (crosstab_rows v))))
            (crosstab v)
  /\ Zsum (map (fun line => Zsum (snd line)) (crosstab v))
     = Z.of_nat (length (crosstab_rows v)).
Proof.
  destruct (sorted_unique_spec (map region (crosstab_rows v)))
    as (Hnd & _ & Hin).
  fold (crosstab_index v) in Hnd, Hin.
  assert (Hidx : forall reg, In reg (crosstab_index v)
                   <-> exists r, In r v /\ region r = Some reg
                                 /\ notna (attack_type r) = true).
  { intros reg. rewrite Hin, in_map_iff. unfold crosstab_rows. split.
    - intros (r & Hreg & Hr). apply filter_In in Hr as [Hr Hb].
      apply andb_true_iff in Hb as [_ Hb]. now exists r.
    - intros (r & Hr & Hreg & Hb). exists r. split; [exact Hreg|].
      apply filter_In. split; [exact Hr|]. now rewrite Hreg, Hb. }
  split.
  { unfold crosstab. rewrite map_map. simpl. apply map_id. }
  split; [exact Hnd|].
  split; [apply sorted_unique_spec|]. split; [exact Hidx|]. split.
  - apply Forall_forall. intros line Hline. unfold crosstab in Hline.
    apply in_map_iff in Hline as (reg & <- & Hreg). cbn [fst snd].
    split; [apply length_map|].
    rewrite crosstab_row_sum.
    split; [|reflexivity].
    apply Hin, in_map_iff in Hreg as (r & Hk & Hr).
    assert (Hmem : In r (filter (fun r => str_eq (region r) reg)
                                (crosstab_rows v))).
    { apply filter_In. split; [exact Hr | now apply str_eq_true]. }
    destruct (filter _ (crosstab_rows v)); [destruct Hmem|].
    cbn [length]. lia.
  - unfold crosstab. rewrite map_map. cbn [snd].
    rewrite (Zsum_ext_in _ (fun reg => Zsum (map (fun _ => 1)
               (filter (fun r => str_eq (region r) reg) (crosstab_rows v)))))
      by (intros reg _; rewrite crosstab_row_sum; apply length_rows).
    rewrite (group_sums (fun reg r => str_eq (region r) reg)).
    rewrite length_rows. apply Zsum_ext_in. intros r Hr.
    assert (Hreg : exists reg, region r = Some reg).
    { unfold crosstab_rows in Hr. apply filter_In in Hr as [_ Hb].
      destruct (region r) as [reg|]; [now exists reg | discriminate]. }
    destruct Hreg as (reg & Hreg). rewrite Hreg. cbn [str_eq].
    rewrite filter_eqb_NoDup_str; [lia | exact Hnd |].
    apply Hin. rewrite <- Hreg. now apply in_map.
Qed.

(** ** A selected country: proofs *)

Lemma unique_constant (k : string) (l : list string) :
  l <> [] -> Forall (fun x => x = k) l -> unique string_dec l = [k].
Proof.
  intros Hne H. induction H as [|x l -> Hl IH]; [congruence|].
  simpl. f_equal. destruct l as [|y l']; [reflexivity|].
  rewrite IH by discriminate. simpl.
  now destruct (string_dec k k).
Qed.

(** X27: with a country selected and a view that is not empty, every country
    table shrinks to that one country: the grouped table and the ranked table
    hold a single row carrying "Total Killed" and "Total Attacks", and the
    choropleth table a single count, "Total Attacks". *)
Theorem selected_country_gives_single_row
  (df : DataFrame) (c : FilterCriteria) :
  selected_country c <> "All Countries" ->
  apply_filters df c <> [] ->
  country_agg (apply_filters df c)
  = [mkCountryRow (selected_country c)
                  (total_killed (kpi_metrics (apply_filters df c)))
                  (total_attacks (kpi_metrics (apply_filters df c)))]
  /\ top_countries (apply_filters df c) = country_agg (apply_filters df c)
  /\ country_counts (apply_filters df c)
     = [(selected_country c,
         total_attacks (kpi_metrics (apply_filters df c)))].
Proof.
  intros Hsel Hne.
  set (v := apply_filters df c) in *.
  set (k := selected_country c) in *.
  assert (Hall : Forall (fun r => country r = Some k) v).
  { apply Forall_forall. intros r Hr. apply view_row_spec in Hr.
    destruct Hr as (_ & _ & _ & [Hc|Hc] & _); [contradiction | exact Hc]. }
  assert (Hvals : dropna (map country v) = map (fun _ => k) v).
  { clear Hne. induction Hall as [|r v' Hr _ IH]; simpl; [reflexivity|].
    rewrite Hr. simpl. now rewrite IH. }
  assert (Hkeys : unique string_dec (dropna (map country v)) = [k]).
  { apply unique_constant.
    - rewrite Hvals. destruct v; [congruence | discriminate].
    - rewrite Hvals. apply Forall_forall. intros x Hx.
      now apply in_map_iff in Hx as (r & <- & _). }
  assert (Hfilter : filter (fun r => str_eq (country r) k) v = v).
  { apply filter_all_true. eapply Forall_impl; [|exact Hall].
    intros r Hr. now apply str_eq_true. }
  assert (Hagg : country_agg v
                 = [mkCountryRow k (col_sum (map nkill v))
                                 (Z.of_nat (length v))]).
  { unfold country_agg, groupby_str. rewrite Hkeys. simpl.
    now rewrite Hfilter. }
  split; [exact Hagg|]. split.
  - unfold top_countries, nlargest. rewrite Hagg. reflexivity.
  - unfold country_counts, value_counts. rewrite Hkeys. simpl.
    rewrite count_occ_rows, Hfilter. reflexivity.
Qed.

Lemma selected_country_gives_single_row_witness :
  country_agg (apply_filters scenario_dataset
                 (mkCriteria (1999, 2001) "All Regions" "Y" "All Types" All))
  = [mkCountryRow "Y" 0 1]
  /\ top_countries (apply_filters scenario_dataset
                      (mkCriteria (1999, 2001) "All Regions" "Y" "All Types"
                                  All))
     = country_agg (apply_filters scenario_dataset
                      (mkCriteria (1999, 2001) "All Regions" "Y" "All Types"
                                  All))
  /\ country_counts (apply_filters scenario_dataset
                       (mkCriteria (1999, 2001) "All Regions" "Y" "All Types"
                                   All))
     = [("Y", 1)].
Proof.
  apply (selected_country_gives_single_row scenario_dataset
           (mkCriteria (1999, 2001) "All Regions" "Y" "All Types" All)).
  - discriminate.
  - discriminate.
Defined.

(** ** Group timeline: proofs *)

Lemma size_by_year_and_keys (key : Incident -> option string) (v : DataFrame)
  (y : Z) (k : string) :
  In (y, k) (map (fun e => (fst (fst e), snd (fst e))) (size_by_year_and key v))
  <-> exists r, In r v /\ year r = y /\ key r = Some k.
Proof.
  unfold size_by_year_and. rewrite map_map. simpl.
  rewrite (map_ext _ (fun k => k)) by (now intros [y0 k0]).
  rewrite map_id, sort_by_In, unique_In. apply year_name_keys_In.
Qed.

Lemma NoDup_map_eq {A B : Type} (f : A -> B) (l : list A) (a b : A) :
  NoDup (map f l) -> In a l -> In b l -> f a = f b -> a = b.
Proof.
  induction l as [|x l IH]; simpl; [easy|].
  intros Hnd Ha Hb E. inversion Hnd as [|? ? Hx Hnd']; subst.
  destruct Ha as [->|Ha], Hb as [->|Hb]; try reflexivity.
  - exfalso. apply Hx. rewrite E. now apply in_map.
  - exfalso. apply Hx. rewrite <- E. now apply in_map.
  - now apply IH.
Qed.

Lemma top5_rows (v : DataFrame) (g : GroupRow) :
  In g (top_groups v) ->
  (In (g_name g) (top5 v) <-> In g (nlargest 5 g_attacks (top_groups v))).
Proof.
  intros Hg. unfold top5. split.
  - intros Hn. apply in_map_iff in Hn as (g' & E & Hg').
    assert (g' = g); [|now subst].
    apply (NoDup_map_eq g_name (top_groups v)); try assumption.
    + rewrite top_groups_names. apply sorted_unique_spec.
    + now apply (proj1 (proj2 (nlargest_spec 5 g_attacks (top_groups v)))).
  - intros H. now apply in_map.
Qed.

Lemma top5_NoDup (v : DataFrame) : NoDup (top5 v).
Proof.
  unfold top5, nlargest.
  set (s := sort_by (fun a b => g_attacks b <=? g_attacks a) (top_groups v)).
  assert (Hnd : NoDup (map g_name s)).
  { eapply Permutation_NoDup.
    - apply Permutation_map. symmetry. apply sort_by_perm.
    - rewrite top_groups_names. apply sorted_unique_spec. }
  rewrite <- (firstn_skipn 5 s), map_app in Hnd.
  now apply NoDup_app_remove_r in Hnd.
Qed.

Lemma isin_top5_rows (v : DataFrame) :
  filter (fun r => isin (group_name r) (top5 v)) (df_groups v)
  = filter (fun r => isin (group_name r) (top5 v)) v.
Proof.
  unfold df_groups. rewrite filter_filter. apply filter_ext. intros r.
  destruct (isin (group_name r) (top5 v)) eqn:E;
    [|now rewrite andb_false_r].
  apply isin_true in E as (k & Hk & Hin). rewrite Hk.
  apply (proj2 (top5_spec v)), top_groups_name_spec in Hin as [_ Hu].
  now rewrite (proj2 (not_unknown_some k) Hu).
Qed.

(** X17: the activity timeline draws the five most active groups of the groups
    table (all of them when there are fewer), none of them "Unknown" and none
    less active than a group left out.  It has exactly one point per year and
    drawn group with an attack, no other point, and the height of a point is
    the number of rows of the view for that group in that year; the heights
    add up to the rows of the view that belong to a drawn group. *)
Theorem group_timeline_follows_top5 (v : DataFrame) :
  (length (top5 v) <= 5)%nat
  /\ length (top5 v) = Nat.min 5 (length (top_groups v))
  /\ NoDup (top5 v)
  /\ incl (top5 v) (map g_name (top_groups v))
  /\ Forall (fun g =>
               In (g_name g) (top5 v)
               \/ Forall (fun g' => In (g_name g') (top5 v) ->
                                    g_attacks g <= g_attacks g')
                         (top_groups v))
            (top_groups v)
  /\ NoDup (map (fun e => (fst (fst e), snd (fst e))) (group_timeline v))
  /\ (forall y k,
         In (y, k) (map (fun e => (fst (fst e), snd (fst e)))
                        (group_timeline v))
         <-> In k (top5 v)
             /\ exists r, In r v /\ year r = y /\ group_name r = Some k)
  /\ Forall (fun e =>
               In (snd (fst e)) (top5 v)
               /\ snd (fst e) <> "Unknown"
               /\ 1 <= snd e
               /\ snd e
                  = Z.of_nat
                      (length
                         (filter (fun r => (year r =? fst (fst e))
                                           && str_eq (group_name r)
                                                     (snd (fst e)))
                                 v)))
            (group_timeline v)
  /\ Zsum (map snd (group_timeline v))
     = Z.of_nat (length (filter (fun r => isin (group_name r) (top5 v)) v)).
Proof.
  destruct (top5_spec v) as (Hlen & Hincl).
  split; [exact Hlen|]. split.
  { unfold top5. rewrite length_map.
    apply (nlargest_spec 5 g_attacks (top_groups v)). }
  split; [apply top5_NoDup|]. split; [exact Hincl|]. split.
  { destruct (nlargest_spec 5 g_attacks (top_groups v)) as (_ & _ & Htop).
    rewrite Forall_forall in Htop.
    apply Forall_forall. intros g Hg.
    destruct (in_dec string_dec (g_name g) (top5 v)) as [Hin|Hout];
      [now left | right].
    apply Forall_forall. intros g' Hg' Hn'.
    apply (top5_rows v g' Hg') in Hn'.
    specialize (Htop g' Hn'). rewrite Forall_forall in Htop.
    destruct (Htop g Hg) as [H|H]; [|exact H].
    exfalso. apply Hout. now apply (top5_rows v g Hg). }
  unfold group_timeline. rewrite isin_top5_rows.
  set (v' := filter (fun r => isin (group_name r) (top5 v)) v).
  destruct (size_by_year_and_spec group_name v') as (Hnd & Hall).
  split; [exact Hnd|].
  assert (Hv' : forall r k, group_name r = Some k ->
                  (In r v' <-> In r v /\ In k (top5 v))).
  { intros r k Hk. unfold v'. rewrite filter_In, isin_true. split.
    - intros [Hr (k' & E & Hin)]. split; [exact Hr|]. congruence.
    - intros [Hr Hin]. split; [exact Hr|]. now exists k. }
  split.
  { intros y k. rewrite size_by_year_and_keys. split.
    - intros (r & Hr & Hy & Hk). apply (Hv' r k Hk) in Hr as [Hr Hin].
      split; [exact Hin|]. now exists r.
    - intros [Hin (r & Hr & Hy & Hk)]. exists r.
      split; [now apply (Hv' r k Hk) | auto]. }
  split.
  - eapply Forall_impl; [|exact Hall]. intros [[y k] n]. simpl.
    intros ((r & Hr & Hy & Hk) & Hn).
    pose proof (proj1 (Hv' r k Hk) Hr) as [Hrv Hin].
    assert (Hu : k <> "Unknown").
    { apply Hincl in Hin. now apply top_groups_name_spec in Hin. }
    assert (Hcount : filter (fun r => (year r =? y)
                                      && str_eq (group_name r) k) v'
                     = filter (fun r => (year r =? y)
                                        && str_eq (group_name r) k) v).
    { unfold v'. rewrite filter_filter. apply filter_ext. intros r'.
      destruct (str_eq (group_name r') k) eqn:Ek;
        [|now destruct (isin (group_name r') (top5 v)), (year r' =? y)].
      apply str_eq_true in Ek. rewrite Ek.
      rewrite (proj2 (isin_true (Some k) (top5 v)));
        [reflexivity | now exists k]. }
    split; [exact Hin|]. split; [exact Hu|]. split.
    + rewrite Hn.
      assert (Hmem : In r (filter (fun r => (year r =? y)
                                            && str_eq (group_name r) k) v')).
      { apply filter_In. split; [exact Hr|].
        apply andb_true_iff. split; [lia | now apply str_eq_true]. }
      destruct (filter _ v'); [destruct Hmem | simpl length; lia].
    + now rewrite Hn, Hcount.
  - pose proof (size_by_year_and_sum group_name v') as Hsum.
    rewrite (filter_all_false _ v') in Hsum; [simpl in Hsum; lia|].
    apply Forall_forall. intros r Hr. unfold v' in Hr.
    apply filter_In in Hr as [_ Hr]. apply isin_true in Hr as (k & -> & _).
    reflexivity.
Qed.
